(** * PlaylistCreator: the metadata fetch and the four-agent pipeline

    A shallow embedding of [PLAYLISTGENERATOR.py].  The program talks to
    two outside services (the Deezer catalog over HTTP and a text
    generation endpoint), draws random numbers and writes to a Streamlit
    page.  All of that is made explicit here: a [world] value records the
    requests issued, the random draws still to come, the generation calls
    and what was displayed; the program is a function on worlds written
    in a small state-and-exception monad. *)

From Stdlib Require Import ZArith QArith Ascii.
From stdpp Require Import base option list strings pretty gmap.

Set Warnings "-register-all".
Local Open Scope string_scope.
Local Open Scope nat_scope.
Local Open Scope list_scope.

(** ** Decoded JSON, as Python sees it *)

(** A Python [float].  Only its truth value is ever observed. *)
Inductive pyfloat :=
  | Fnan
  | Finf (negative : bool)
  | Ffinite (negative : bool) (mantissa : N) (exponent : Z).

(** What [response.json()] can return. *)
Inductive json :=
  | JNull
  | JBool (b : bool)
  | JInt (z : Z)
  | JFloat (f : pyfloat)
  | JStr (s : string)
  | JList (l : list json)
  | JDict (m : gmap string json).

#[global] Instance json_inhabited : Inhabited json := populate JNull.

(** An instance of Python's [Exception]: its class name and [str(e)]. *)
Record exn := Exn { exn_class : string; exn_text : string }.

(** How a statement ends: normally, by an exception that
    [except Exception] catches, or by Streamlit's [st.stop()], whose
    [StopException] derives from [BaseException] and is not caught. *)
Inductive res (A : Type) :=
  | Ok (a : A)
  | Raised (e : exn)
  | Stopped.
Arguments Ok {A} a.
Arguments Raised {A} e.
Arguments Stopped {A}.

Module Py.

Definition nl : string := String (Ascii.ascii_of_nat 10) EmptyString.

Definition TypeError (msg : string) : exn := Exn "TypeError" msg.
Definition KeyError (msg : string) : exn := Exn "KeyError" msg.
Definition IndexError (msg : string) : exn := Exn "IndexError" msg.
Definition AttributeError (msg : string) : exn := Exn "AttributeError" msg.
Definition ValueError (msg : string) : exn := Exn "ValueError" msg.

Definition type_name (v : json) : string :=
  match v with
  | JNull => "NoneType"
  | JBool _ => "bool"
  | JInt _ => "int"
  | JFloat _ => "float"
  | JStr _ => "str"
  | JList _ => "list"
  | JDict _ => "dict"
  end.

(** A byte of the form 10xxxxxx continues a UTF-8 code point. *)
Definition is_continuation (c : Ascii.ascii) : bool :=
  match c with
  | Ascii.Ascii _ _ _ _ _ _ b6 b7 => b7 && negb b6
  end.

(** The characters of a [str], each as a one-character [str]. *)
Fixpoint chars (s : string) : list string :=
  match s with
  | EmptyString => []
  | String c rest =>
      let r := chars rest in
      match rest, r with
      | String c' _, g :: gs =>
          if is_continuation c' then String c g :: gs
          else String c EmptyString :: r
      | _, _ => String c EmptyString :: r
      end
  end.

(** [bool(v)], as in [if not v]. *)
Definition truthy (v : json) : bool :=
  match v with
  | JNull => false
  | JBool b => b
  | JInt z => negb (Z.eqb z 0)
  | JFloat (Ffinite _ m _) => negb (N.eqb m 0)
  | JFloat _ => true
  | JStr s => negb (String.eqb s "")
  | JList l => negb (Nat.eqb (length l) 0)
  | JDict m => negb (Nat.eqb (size m) 0)
  end.

(** [v.get(key, default)]: only a dict has the method. *)
Definition dict_get (v : json) (key : string) (dflt : json) : res json :=
  match v with
  | JDict m => Ok (default dflt (m !! key))
  | _ => Raised (AttributeError
           ("'" +:+ type_name v +:+ "' object has no attribute 'get'"))
  end.

(** [v[key]] with a string key. *)
Definition getitem_key (v : json) (key : string) : res json :=
  match v with
  | JDict m =>
      match m !! key with
      | Some x => Ok x
      | None => Raised (KeyError ("'" +:+ key +:+ "'"))
      end
  | JList _ =>
      Raised (TypeError "list indices must be integers or slices, not str")
  | JStr _ =>
      Raised (TypeError "string indices must be integers, not 'str'")
  | _ => Raised (TypeError
           ("'" +:+ type_name v +:+ "' object is not subscriptable"))
  end.

(** [v[0]]: the first element of a list, the first character of a
    [str]; a decoded JSON object has string keys only, so the integer
    is never one of them. *)
Definition getitem_0 (v : json) : res json :=
  match v with
  | JList l =>
      match l !! 0 with
      | Some x => Ok x
      | None => Raised (IndexError "list index out of range")
      end
  | JStr s =>
      match chars s !! 0 with
      | Some c => Ok (JStr c)
      | None => Raised (IndexError "string index out of range")
      end
  | JDict _ => Raised (KeyError "0")
  | _ => Raised (TypeError
           ("'" +:+ type_name v +:+ "' object is not subscriptable"))
  end.

(** [len(v)] *)
Definition len (v : json) : res nat :=
  match v with
  | JList l => Ok (length l)
  | JStr s => Ok (length (chars s))
  | JDict m => Ok (size m)
  | _ => Raised (TypeError
           ("object of type '" +:+ type_name v +:+ "' has no len()"))
  end.

(** The items [for x in v] runs over: list elements, the characters of
    a [str], the keys of a dict. *)
Definition iter (v : json) : res (list json) :=
  match v with
  | JList l => Ok l
  | JStr s => Ok (JStr <$> chars s)
  | JDict m => Ok ((λ kv, JStr kv.1) <$> map_to_list m)
  | _ => Raised (TypeError
           ("'" +:+ type_name v +:+ "' object is not iterable"))
  end.

(** [sep.join(items)]: every item must be a [str]. *)
Fixpoint join_from (i : nat) (sep : string) (items : list json) : res string :=
  match items with
  | [] => Ok ""
  | x :: rest =>
      match x with
      | JStr s =>
          match rest with
          | [] => Ok s
          | _ =>
              match join_from (S i) sep rest with
              | Ok t => Ok (s +:+ sep +:+ t)
              | other => other
              end
          end
      | _ => Raised (TypeError
               ("sequence item " +:+ pretty i +:+ ": expected str instance, "
                +:+ type_name x +:+ " found"))
      end
  end.

Definition join (sep : string) (items : list json) : res string :=
  join_from 0 sep items.

Definition is_str (v : json) : bool :=
  match v with JStr _ => true | _ => false end.

End Py.

(** ** The outside world *)

(** What a call to an outside service does. *)
Inductive outcome (A : Type) :=
  | Returns (a : A)
  | Throws (e : exn).
Arguments Returns {A} a.
Arguments Throws {A} e.

(** The arguments of one [chat_completion] call. *)
Record gen_call := GenCall {
  gc_model : string;
  gc_token : string;
  gc_messages : list (string * string);
  gc_max_tokens : nat;
  gc_temperature : Q;
  gc_top_p : Q
}.

(** What the Streamlit calls put on the page, in order. *)
Inductive ui_event :=
  | StPageConfig (page_title page_icon layout : string)
  | StTitle (s : string)
  | StMarkdown (s : string)
  | StHeader (s : string)
  | StWarning (s : string)
  | StStatus (label : string)
  | StStatusUpdate (label state : string)
  | StSuccess (s : string)
  | StError (s : string)
  | StDivider
  | StSubheader (s : string)
  | StChatMessage (avatar : string)
  | StSpinner (s : string)
  | StWrite (s : string).

Record world := World {
  requests_log : list (string * outcome json);
  rng : list nat;
  stdout : list string;
  generation_log : list (gen_call * outcome string);
  page : list ui_event
}.

(** ** The monad of statements *)

Definition M (A : Type) : Type := world -> res A * world.

Definition ret {A} (a : A) : M A := fun w => (Ok a, w).

Definition bind {A B} (m : M A) (k : A -> M B) : M B :=
  fun w =>
    match m w with
    | (Ok a, w') => k a w'
    | (Raised e, w') => (Raised e, w')
    | (Stopped, w') => (Stopped, w')
    end.

Definition lift {A} (r : res A) : M A := fun w => (r, w).

Definition raise {A} (e : exn) : M A := fun w => (Raised e, w).

(** [try: body / except Exception as e: handler e] *)
Definition try_except {A} (body : M A) (handler : exn -> M A) : M A :=
  fun w =>
    match body w with
    | (Raised e, w') => handler e w'
    | other => other
    end.

Declare Scope py_scope.
Delimit Scope py_scope with py.
Notation "x <- m ;; k" := (bind m (fun x => k))
  (at level 100, m at next level, right associativity) : py_scope.
Notation "m ;;; k" := (bind m (fun _ => k))
  (at level 100, right associativity) : py_scope.
Local Open Scope py_scope.

(** [print(s)] *)
Definition print (s : string) : M unit :=
  fun w => (Ok tt, World (requests_log w) (rng w) (stdout w ++ [s])
                         (generation_log w) (page w)).

(** A Streamlit call that renders something. *)
Definition st (ev : ui_event) : M unit :=
  fun w => (Ok tt, World (requests_log w) (rng w) (stdout w)
                         (generation_log w) (page w ++ [ev])).

(** [st.stop()] *)
Definition st_stop {A} : M A := fun w => (Stopped, w).

(** The generator's [_randbelow(n)]: the next draw, reduced below [n].
    [rng] lists the draws still to come; past its end every draw is 0. *)
Definition randbelow (n : nat) : M nat :=
  fun w =>
    match rng w with
    | [] => (Ok 0, w)
    | x :: xs => (Ok (x mod n), World (requests_log w) xs (stdout w)
                                      (generation_log w) (page w))
    end.

(** The selection loop of [random.sample] over a copy of the population:
    with [m] entries still unselected at the front of [pool], pick
    [pool[j]] for a random [j < m] and move [pool[m-1]] into the vacancy. *)
Fixpoint sample_loop (pool : list json) (m k : nat) : M (list json) :=
  match k with
  | 0 => ret []
  | S k' =>
      j <- randbelow m ;;
      let picked := pool !!! j in
      let pool' := <[j := pool !!! (m - 1)]> pool in
      rest <- sample_loop pool' (m - 1) k' ;;
      ret (picked :: rest)
  end.

(** [random.sample(population, k)]: the population must be a sequence (a
    list or a [str]; a dict is refused) with at least [k] entries.  The
    library runs the loop above for [k = 5] and up to 21 entries, which
    is what [limit=20] asks for; it is taken here for longer populations
    too. *)
Definition random_sample (population : json) (k : nat) : M (list json) :=
  match population with
  | JList l =>
      if length l <? k
      then raise (Py.ValueError "Sample larger than population or is negative")
      else sample_loop l (length l) k
  | JStr s =>
      let l := JStr <$> Py.chars s in
      if length l <? k
      then raise (Py.ValueError "Sample larger than population or is negative")
      else sample_loop l (length l) k
  | _ => raise (Py.TypeError
           "Population must be a sequence.  For dicts or sets, use sorted(d).")
  end.

(** ** The program *)

(** [MODEL_REPO_ID] *)
Definition MODEL_REPO_ID : string := "Qwen/Qwen2.5-72B-Instruct".

(** The dict [fetch_artist_metadata] returns, and its entries under
    ["similar"].  Names and titles are whatever the catalog sent. *)
Record related_artist := RelatedArtist {
  name : json;
  tracks : list json
}.

Record metadata := Metadata {
  source_artist : json;
  source_tracks : list json;
  similar : list related_artist
}.

(** [InferenceClient(model=..., token=...)] *)
Record InferenceClient := Client {
  client_model : string;
  client_token : string
}.

(** [Agent(name, role, client)] *)
Record Agent := MkAgent {
  agent_name : string;
  agent_role : string;
  agent_client : InferenceClient
}.

Section Program.

(** The text Python prints for a float, a list or a dict. *)
Variable py_repr : json -> string.

(** [str(v)] of a decoded JSON value, as an f-string formats it. *)
Definition py_str (v : json) : string :=
  match v with
  | JStr s => s
  | JNull => "None"
  | JBool true => "True"
  | JBool false => "False"
  | JInt z => pretty z
  | _ => py_repr v
  end.

(** The catalog service: the answer to a GET, given the URLs requested
    before it.  [Throws] covers the network failing and the body not
    being JSON. *)
Variable catalog : list string -> string -> outcome json.

(** The generation service: the text under
    [response.choices[0].message.content], or the exception the call or
    that access raises, given the earlier calls. *)
Variable generate : list gen_call -> gen_call -> outcome string.

(** [requests.get(url).json()] *)
Definition requests_get_json (url : string) : M json :=
  fun w =>
    let out := catalog (requests_log w).*1 url in
    (match out with Returns v => Ok v | Throws e => Raised e end,
     World (requests_log w ++ [(url, out)]) (rng w) (stdout w)
           (generation_log w) (page w)).

Definition search_url (artist_name : string) : string :=
  "https://api.deezer.com/search/artist?q=" +:+ artist_name.

Definition tracks_url (artist_id : json) : string :=
  "https://api.deezer.com/artist/" +:+ py_str artist_id +:+ "/top?limit=4".

Definition related_url (artist_id : json) : string :=
  "https://api.deezer.com/artist/" +:+ py_str artist_id +:+ "/related?limit=20".

Definition r_tracks_url (r_id : json) : string :=
  "https://api.deezer.com/artist/" +:+ py_str r_id +:+ "/top?limit=2".

(** [[t['title'] for t in tracks_data]] *)
Fixpoint titles_of (items : list json) : res (list json) :=
  match items with
  | [] => Ok []
  | t :: rest =>
      match Py.getitem_key t "title" with
      | Ok title =>
          match titles_of rest with
          | Ok titles => Ok (title :: titles)
          | other => other
          end
      | Raised e => Raised e
      | Stopped => Stopped
      end
  end.

Definition titles (tracks_data : json) : M (list json) :=
  items <- lift (Py.iter tracks_data) ;;
  lift (titles_of items).

(** Lines 50-53: keep five random entries of a longer list, else all. *)
Definition select_related (related_data_all : json) : M json :=
  n <- lift (Py.len related_data_all) ;;
  if 5 <? n
  then (related_data <- random_sample related_data_all 5 ;;
        ret (JList related_data))
  else ret related_data_all.

(** Lines 55-65: the loop over the kept related artists. *)
Fixpoint related_loop (related_data : list json)
         (similar_artists_info : list related_artist)
  : M (list related_artist) :=
  match related_data with
  | [] => ret similar_artists_info
  | rel_artist :: rest =>
      r_id <- lift (Py.getitem_key rel_artist "id") ;;
      r_response <- requests_get_json (r_tracks_url r_id) ;;
      r_tracks_data <- lift (Py.dict_get r_response "data" (JList [])) ;;
      r_tracks <- titles r_tracks_data ;;
      r_name <- lift (Py.getitem_key rel_artist "name") ;;
      related_loop rest
        (similar_artists_info ++ [RelatedArtist r_name r_tracks])
  end.

(** The body of the [try] in [fetch_artist_metadata]. *)
Definition fetch_body (artist_name : string) : M (option metadata) :=
  response <- requests_get_json (search_url artist_name) ;;
  found <- lift (Py.dict_get response "data" JNull) ;;
  if negb (Py.truthy found) then ret None else
  data <- lift (Py.getitem_key response "data") ;;
  artist_obj <- lift (Py.getitem_0 data) ;;
  artist_id <- lift (Py.getitem_key artist_obj "id") ;;
  real_name <- lift (Py.getitem_key artist_obj "name") ;;
  tracks_response <- requests_get_json (tracks_url artist_id) ;;
  tracks_data <- lift (Py.dict_get tracks_response "data" (JList [])) ;;
  source_tracks <- titles tracks_data ;;
  related_response <- requests_get_json (related_url artist_id) ;;
  related_data_all <- lift (Py.dict_get related_response "data" (JList [])) ;;
  related_data <- select_related related_data_all ;;
  related_items <- lift (Py.iter related_data) ;;
  similar_artists_info <- related_loop related_items [] ;;
  ret (Some (Metadata real_name source_tracks similar_artists_info)).

Definition fetch_artist_metadata (artist_name : string) : M (option metadata) :=
  try_except (fetch_body artist_name)
    (fun e => print ("API Error: " +:+ exn_text e) ;;; ret None).

(** [self.client.chat_completion(...)] followed by
    [response.choices[0].message.content]. *)
Definition chat_completion (client : InferenceClient)
           (messages : list (string * string)) (max_tokens : nat)
           (temperature top_p : Q) : M string :=
  fun w =>
    let call := GenCall (client_model client) (client_token client)
                        messages max_tokens temperature top_p in
    let out := generate (generation_log w).*1 call in
    (match out with Returns text => Ok text | Throws e => Raised e end,
     World (requests_log w) (rng w) (stdout w)
           (generation_log w ++ [(call, out)]) (page w)).

Definition indent16 : string := "                ".

(** The two messages [Agent.execute] composes. *)
Definition messages_of (self : Agent) (input_context : string)
  : list (string * string) :=
  [ ("system",
     Py.nl +:+ indent16 +:+ "РОЛЬ: " +:+ agent_name self +:+
     Py.nl +:+ indent16 +:+ "ЗАДАЧА: " +:+ agent_role self +:+
     Py.nl +:+ indent16 +:+
     "ОГРАНИЧЕНИЯ: Русский язык, Markdown разметка, работа строго по контексту." +:+
     Py.nl +:+ indent16);
    ("user", "КОНТЕКСТ ДАННЫХ:" +:+ Py.nl +:+ input_context) ].

Definition error_prefix : string := "Ошибка выполнения агента: ".

(** [Agent.execute] *)
Definition execute (self : Agent) (input_context : string) : M string :=
  let messages := messages_of self input_context in
  try_except
    (chat_completion (agent_client self) messages 1500 (4 # 10) (9 # 10))
    (fun e => ret (error_prefix +:+ exn_text e)).

(** Lines 150-153: the loop appending one line per related artist. *)
Fixpoint context_loop (similar_artists : list related_artist)
         (context_payload : string) : M string :=
  match similar_artists with
  | [] => ret context_payload
  | s :: rest =>
      joined <- lift (Py.join ", " (tracks s)) ;;
      context_loop rest
        (context_payload +:+ "- " +:+ py_str (name s) +:+ " (Треки: " +:+
         joined +:+ ")" +:+ Py.nl)
  end.

(** Lines 150-153: the context handed to the first two agents. *)
Definition build_context (raw_data : metadata) : M string :=
  joined <- lift (Py.join ", " (source_tracks raw_data)) ;;
  let context_payload :=
    "ЦЕЛЕВАЯ СУЩНОСТЬ: " +:+ py_str (source_artist raw_data) +:+
    " (Топ-треки: " +:+ joined +:+ ")" +:+ Py.nl in
  let context_payload := context_payload +:+ "СВЯЗАННЫЕ СУЩНОСТИ:" +:+ Py.nl in
  context_loop (similar raw_data) context_payload.

Definition agent1 (client : InferenceClient) : Agent :=
  MkAgent "Агент 1 (Анализатор Сходства)"
    "Проанализируй список связанных исполнителей. Объясни стилистические связи между целевым артистом и связанными сущностями."
    client.

Definition agent2 (client : InferenceClient) : Agent :=
  MkAgent "Агент 2 (Композитор Плейлиста)"
    "Сформируй единый список треков на основе контекста. Формат: 'Исполнитель - Трек'. Не генерируй несуществующие данные."
    client.

Definition agent3 (client : InferenceClient) : Agent :=
  MkAgent "Агент 3 (Классификатор)"
    "Раздели список на две контрастные категории настроения. Выведи отсортированные списки под заголовками."
    client.

Definition agent4 (client : InferenceClient) : Agent :=
  MkAgent "Агент 4 (Discovery Engine)"
    (Py.nl +:+ "            " +:+
     "1. Предложи 3 НОВЫХ трека от других исполнителей (которых нет в списке)." +:+
     Py.nl +:+ "            ")
    client.

(** Lines 138-148: stage 0, the metadata or a halt. *)
Definition collect (user_query : string) : M metadata :=
  st (StStatus "Система: Получение метаданных из внешнего API...") ;;;
  raw_data <- fetch_artist_metadata user_query ;;
  match raw_data with
  | Some md =>
      st (StSuccess ("Целевой объект идентифицирован: " +:+
                     py_str (source_artist md) +:+ ".")) ;;;
      st (StStatusUpdate "Сбор данных завершен" "complete") ;;;
      ret md
  | None =>
      st (StStatusUpdate "Ошибка сбора данных" "error") ;;;
      st (StError "Исполнитель не найден.") ;;;
      st_stop
  end.

(** Lines 155-206: the four stages. *)
Definition pipeline (client : InferenceClient) (context_payload : string)
  : M unit :=
  st StDivider ;;;
  st (StSubheader "🕵️ Агент 1: Семантический Анализ") ;;;
  st (StChatMessage "🕵️") ;;;
  st (StSpinner "Выполнение семантического анализа...") ;;;
  output_1 <- execute (agent1 client) context_payload ;;
  st (StMarkdown output_1) ;;;
  st (StSubheader "💿 Агент 2: Агрегация Плейлиста") ;;;
  st (StChatMessage "💿") ;;;
  st (StSpinner "Компиляция списка треков...") ;;;
  output_2 <- execute (agent2 client) context_payload ;;
  st (StMarkdown output_2) ;;;
  st (StSubheader "📊 Агент 3: Кластеризация по Настроению") ;;;
  st (StChatMessage "📊") ;;;
  st (StSpinner "Классификация аудио-признаков...") ;;;
  output_3 <- execute (agent3 client) output_2 ;;
  st (StMarkdown output_3) ;;;
  st (StSubheader "🟢 Агент 4: Рекомендательная Система") ;;;
  st (StChatMessage "🟢") ;;;
  st (StSpinner "Генерация рекомендаций...") ;;;
  output_4 <- execute (agent4 client) output_3 ;;
  st (StSuccess "Альтернативные Миксы и Discovery:") ;;;
  st (StMarkdown output_4).

(** [main], for one run of the script: [hf_token] and [user_query] are
    what the two text inputs hold, [run_btn] whether the button was
    pressed. *)
Definition main (hf_token user_query : string) (run_btn : bool) : M unit :=
  st (StPageConfig "Интеллектуальная МАС" "🎵" "wide") ;;;
  st (StTitle "🎵 Интеллектуальная Система Генерации Плейлистов") ;;;
  st (StMarkdown "### Лабораторная работа: Мультиагентные системы") ;;;
  st (StMarkdown "**Выполнили:** Грудницкий и Соловьёв") ;;;
  st (StMarkdown "---") ;;;
  st (StHeader "Конфигурация Системы") ;;;
  if String.eqb hf_token ""
  then st (StWarning "Ожидание токена авторизации...")
  else
    let client := Client MODEL_REPO_ID hf_token in
    st (StWrite "") ;;;
    st (StWrite "") ;;;
    if run_btn && negb (String.eqb user_query "")
    then
      raw_data <- collect user_query ;;
      context_payload <- build_context raw_data ;;
      pipeline client context_payload
    else ret tt.

End Program.

(** ** What a run leaves behind *)

(** [issued w w' es]: between [w] and [w'] exactly the requests [es] went
    to the catalog, and nothing was generated or displayed. *)
Definition issued (w w' : world) (es : list (string * outcome json)) : Prop :=
  requests_log w' = requests_log w ++ es ∧
  generation_log w' = generation_log w ∧
  page w' = page w.

(** A request that threw is the last one, and its exception is how the
    statement ended. *)
Definition throws_last {A} (es : list (string * outcome json)) (r : res A) : Prop :=
  ∀ i u e, es !! i = Some (u, Throws e) → S i = length es ∧ r = Raised e.

(** The same world with another generation log and page. *)
Definition with_page (w : world) (gl : list (gen_call * outcome string))
           (pg : list ui_event) : world :=
  World (requests_log w) (rng w) (stdout w) gl pg.

(** A statement that neither reads nor writes the generation log and the
    page. *)
Definition page_blind {A} (m : M A) : Prop :=
  ∀ w gl pg, m (with_page w gl pg) = ((m w).1, with_page (m w).2 gl pg).

(** Every logged outcome is an answer of the catalog to that URL. *)
Definition answered (catalog : list string → string → outcome json)
           (es : list (string * outcome json)) : Prop :=
  Forall (λ e, ∃ h, e.2 = catalog h e.1) es.

(** [traced catalog n Q m]: whatever the world, [m] does not stop the
    script, issues at most [n] requests, ends with the exception of a
    request that threw without issuing another one, and a value it
    returns satisfies [Q]. *)
Definition traced (catalog : list string → string → outcome json)
           {A} (n : nat) (Q : A → Prop) (m : M A) : Prop :=
  ∀ w, ∃ r w' es,
    m w = (r, w') ∧ issued w w' es ∧ r ≠ Stopped ∧ length es ≤ n ∧
    throws_last es r ∧ answered catalog es ∧ (∀ a, r = Ok a → Q a).

(** The requests issued between two worlds. *)
Definition new_requests (w w' : world) : list (string * outcome json) :=
  drop (length (requests_log w)) (requests_log w').

Section Shapes.

Variable py_repr : json → string.
Variable catalog : list string → string → outcome json.

(** One round of the loop over the kept related artists: the item, the
    request it caused and the entry appended to ["similar"]. *)
Definition loop_step (rel_artist : json) (e : string * outcome json)
           (s : related_artist) : Prop :=
  ∃ r_id r_response r_tracks_data r_items h,
    Py.getitem_key rel_artist "id" = Ok r_id ∧
    e = (r_tracks_url py_repr r_id, Returns r_response) ∧
    catalog h (r_tracks_url py_repr r_id) = Returns r_response ∧
    Py.dict_get r_response "data" (JList []) = Ok r_tracks_data ∧
    Py.iter r_tracks_data = Ok r_items ∧
    titles_of r_items = Ok (tracks s) ∧
    Py.getitem_key rel_artist "name" = Ok (name s).

(** Everything a run of the [try] body that returns metadata went
    through. *)
Definition fetched (artist_name : string) (w : world) (md : metadata)
           (w' : world) : Prop :=
  ∃ response data artist_obj artist_id tracks_response tracks_data
    track_items related_response related_data_all related_data
    related_items es,
    let h0 := (requests_log w).*1 in
    catalog h0 (search_url artist_name) = Returns response ∧
    Py.getitem_key response "data" = Ok data ∧
    Py.truthy data = true ∧
    Py.getitem_0 data = Ok artist_obj ∧
    Py.getitem_key artist_obj "id" = Ok artist_id ∧
    Py.getitem_key artist_obj "name" = Ok (source_artist md) ∧
    catalog (h0 ++ [search_url artist_name]) (tracks_url py_repr artist_id)
      = Returns tracks_response ∧
    Py.dict_get tracks_response "data" (JList []) = Ok tracks_data ∧
    Py.iter tracks_data = Ok track_items ∧
    titles_of track_items = Ok (source_tracks md) ∧
    catalog (h0 ++ [search_url artist_name; tracks_url py_repr artist_id])
            (related_url py_repr artist_id)
      = Returns related_response ∧
    Py.dict_get related_response "data" (JList []) = Ok related_data_all ∧
    (∃ w1 w2, select_related related_data_all w1 = (Ok related_data, w2)) ∧
    Py.iter related_data = Ok related_items ∧
    length related_items ≤ 5 ∧
    Forall3 loop_step related_items es (similar md) ∧
    issued w w'
      ([(search_url artist_name, Returns response);
        (tracks_url py_repr artist_id, Returns tracks_response);
        (related_url py_repr artist_id, Returns related_response)] ++ es).

End Shapes.

(** [kept] is what lines 50-53 may keep of the list [related]: of more
    than five entries, five of them, taken from five different positions
    (so none is drawn twice, and the kept ones are pairwise different
    when the entries of [related] are); of at most five, all of them. *)
Definition sampled_from (related kept : list json) : Prop :=
  (5 < length related →
     length kept = 5 ∧
     (∃ idxs, NoDup idxs ∧ Forall2 (λ i x, related !! i = Some x) idxs kept) ∧
     (∀ x, x ∈ kept → x ∈ related) ∧
     (NoDup related → NoDup kept)) ∧
  (length related ≤ 5 → kept = related).

(** ** Properties of the services *)

(** The list a response carries under ["data"], if it carries one. *)
Definition data_items (response : json) : list json :=
  match response with
  | JDict m => match m !! "data" with Some (JList items) => items | _ => [] end
  | _ => []
  end.

(** A catalog that never sends more top tracks than the [limit] of the
    URL asks for. *)
Definition honours_limits (py_repr : json → string)
           (catalog : list string → string → outcome json) : Prop :=
  (∀ h id response, catalog h (tracks_url py_repr id) = Returns response →
                    length (data_items response) ≤ 4) ∧
  (∀ h id response, catalog h (r_tracks_url py_repr id) = Returns response →
                    length (data_items response) ≤ 2).

(** A response of the expected shape: a dict with the list [items] under
    ["data"]. *)
Definition listing (response : json) (items : list json) : Prop :=
  ∃ m, response = JDict m ∧ m !! "data" = Some (JList items).

(** A dict that has the key. *)
Definition has_key (key : string) (v : json) : Prop :=
  ∃ m x, v = JDict m ∧ m !! key = Some x.

(** The catalog knows the artist and answers every request of the fetch
    in the expected shape: the search lists the artist first, under the
    name [real_name]; the top-tracks request lists [top], the
    related-artists request lists [related], and a top-tracks request for
    any of those lists tracks too.  The lists may be empty. *)
Definition well_formed_answers (py_repr : json → string)
           (catalog : list string → string → outcome json)
           (artist_name : string) (w : world)
           (real_name : json) (top related : list json) : Prop :=
  ∃ response first rest artist_id tracks_response related_response,
    let h0 := (requests_log w).*1 in
    catalog h0 (search_url artist_name) = Returns response ∧
    listing response (first :: rest) ∧
    Py.getitem_key first "id" = Ok artist_id ∧
    Py.getitem_key first "name" = Ok real_name ∧
    catalog (h0 ++ [search_url artist_name]) (tracks_url py_repr artist_id)
      = Returns tracks_response ∧
    listing tracks_response top ∧
    Forall (has_key "title") top ∧
    catalog (h0 ++ [search_url artist_name; tracks_url py_repr artist_id])
            (related_url py_repr artist_id)
      = Returns related_response ∧
    listing related_response related ∧
    (∀ x, x ∈ related →
       ∃ r_id r_name,
         Py.getitem_key x "id" = Ok r_id ∧
         Py.getitem_key x "name" = Ok r_name ∧
         ∀ h, ∃ r_response r_items,
           catalog h (r_tracks_url py_repr r_id) = Returns r_response ∧
           listing r_response r_items ∧
           Forall (has_key "title") r_items).

(** ** The generation calls and the page of a run *)

(** The call [Agent.execute] makes for an input. *)
Definition call_of (self : Agent) (input_context : string) : gen_call :=
  GenCall (client_model (agent_client self)) (client_token (agent_client self))
          (messages_of self input_context) 1500 (4 # 10) (9 # 10).

(** What [Agent.execute] makes of the outcome of its call. *)
Definition reply (out : outcome string) : string :=
  match out with
  | Returns text => text
  | Throws e => error_prefix +:+ exn_text e
  end.

(** What [main] displays before it has the metadata. *)
Definition preamble_page : list ui_event :=
  [StPageConfig "Интеллектуальная МАС" "🎵" "wide";
   StTitle "🎵 Интеллектуальная Система Генерации Плейлистов";
   StMarkdown "### Лабораторная работа: Мультиагентные системы";
   StMarkdown "**Выполнили:** Грудницкий и Соловьёв";
   StMarkdown "---";
   StHeader "Конфигурация Системы";
   StWrite "";
   StWrite "";
   StStatus "Система: Получение метаданных из внешнего API..."].

Definition found_page (shown : string) : list ui_event :=
  [StSuccess ("Целевой объект идентифицирован: " +:+ shown +:+ ".");
   StStatusUpdate "Сбор данных завершен" "complete"].

Definition not_found_page : list ui_event :=
  [StStatusUpdate "Ошибка сбора данных" "error";
   StError "Исполнитель не найден."].

(** What the four stages display, given their outputs. *)
Definition pipeline_page (output_1 output_2 output_3 output_4 : string)
  : list ui_event :=
  [StDivider;
   StSubheader "🕵️ Агент 1: Семантический Анализ";
   StChatMessage "🕵️";
   StSpinner "Выполнение семантического анализа...";
   StMarkdown output_1;
   StSubheader "💿 Агент 2: Агрегация Плейлиста";
   StChatMessage "💿";
   StSpinner "Компиляция списка треков...";
   StMarkdown output_2;
   StSubheader "📊 Агент 3: Кластеризация по Настроению";
   StChatMessage "📊";
   StSpinner "Классификация аудио-признаков...";
   StMarkdown output_3;
   StSubheader "🟢 Агент 4: Рекомендательная Система";
   StChatMessage "🟢";
   StSpinner "Генерация рекомендаций...";
   StSuccess "Альтернативные Миксы и Discovery:";
   StMarkdown output_4].

(** Every track title of the metadata is a [str]. *)
Definition titles_are_strings (md : metadata) : Prop :=
  Forall (λ t, Py.is_str t = true) (source_tracks md) ∧
  Forall (λ s, Forall (λ t, Py.is_str t = true) (tracks s)) (similar md).

(** ** Stub services for concrete runs *)

Module Scenarios.

(** A stand-in for the text of floats, lists and dicts; the runs below
    format none. *)
Definition repr_stub (v : json) : string := "<" +:+ Py.type_name v +:+ ">".

(** A catalog that answers from a table of URLs and is unreachable for
    any other. *)
Fixpoint answer (table : list (string * json)) (url : string) : outcome json :=
  match table with
  | [] => Throws (Exn "ConnectionError" "Max retries exceeded")
  | (u, v) :: rest => if String.eqb u url then Returns v else answer rest url
  end.

Definition table_catalog (table : list (string * json))
  : list string → string → outcome json :=
  fun _ url => answer table url.

Definition obj (fields : list (string * json)) : json :=
  JDict (list_to_map fields).

Definition data_of (items : list json) : json := obj [("data", JList items)].

Definition artist (id : Z) (nm : string) : json :=
  obj [("id", JInt id); ("name", JStr nm)].

Definition track (title : string) : json := obj [("title", JStr title)].

Definition fresh : world := World [] [] [] [] [].

(** "Echo": two top tracks, six related artists with one track each. *)
Definition echo_related : list json :=
  [artist 11 "R1"; artist 12 "R2"; artist 13 "R3";
   artist 14 "R4"; artist 15 "R5"; artist 16 "R6"].

Definition echo_table : list (string * json) :=
  [("https://api.deezer.com/search/artist?q=Echo", data_of [artist 1 "Echo"]);
   ("https://api.deezer.com/artist/1/top?limit=4",
    data_of [track "Ping"; track "Pong"]);
   ("https://api.deezer.com/artist/1/related?limit=20", data_of echo_related);
   ("https://api.deezer.com/artist/11/top?limit=2", data_of [track "T1"]);
   ("https://api.deezer.com/artist/12/top?limit=2", data_of [track "T2"]);
   ("https://api.deezer.com/artist/13/top?limit=2", data_of [track "T3"]);
   ("https://api.deezer.com/artist/14/top?limit=2", data_of [track "T4"]);
   ("https://api.deezer.com/artist/15/top?limit=2", data_of [track "T5"]);
   ("https://api.deezer.com/artist/16/top?limit=2", data_of [track "T6"])].

Definition echo_catalog := table_catalog echo_table.

(** No artist matches "Zzyzx123". *)
Definition nomatch_catalog :=
  table_catalog
    [("https://api.deezer.com/search/artist?q=Zzyzx123", data_of [])].

(** "Solo" has no top tracks and no related artists. *)
Definition solo_catalog :=
  table_catalog
    [("https://api.deezer.com/search/artist?q=Solo", data_of [artist 7 "Solo"]);
     ("https://api.deezer.com/artist/7/top?limit=4", data_of []);
     ("https://api.deezer.com/artist/7/related?limit=20", data_of [])].

(** "Duo" has one related artist, who has no tracks. *)
Definition duo_catalog :=
  table_catalog
    [("https://api.deezer.com/search/artist?q=Duo", data_of [artist 8 "Duo"]);
     ("https://api.deezer.com/artist/8/top?limit=4", data_of [track "One"]);
     ("https://api.deezer.com/artist/8/related?limit=20",
      data_of [artist 9 "Other"]);
     ("https://api.deezer.com/artist/9/top?limit=2", data_of [])].

(** A catalog that ignores [limit=4] and sends five tracks. *)
Definition generous_catalog :=
  table_catalog
    [("https://api.deezer.com/search/artist?q=Echo", data_of [artist 1 "Echo"]);
     ("https://api.deezer.com/artist/1/top?limit=4",
      data_of [track "A"; track "B"; track "C"; track "D"; track "E"]);
     ("https://api.deezer.com/artist/1/related?limit=20", data_of [])].

(** A catalog whose only top track has a null title. *)
Definition untitled_catalog :=
  table_catalog
    [("https://api.deezer.com/search/artist?q=Echo", data_of [artist 1 "Echo"]);
     ("https://api.deezer.com/artist/1/top?limit=4",
      data_of [obj [("title", JNull)]]);
     ("https://api.deezer.com/artist/1/related?limit=20", data_of [])].

(** The search succeeds and the top-tracks request fails. *)
Definition flaky_catalog :=
  table_catalog
    [("https://api.deezer.com/search/artist?q=Echo", data_of [artist 1 "Echo"])].

(** A generation service that echoes the user message after "GEN:". *)
Definition gen_echo : list gen_call → gen_call → outcome string :=
  fun _ call =>
    match gc_messages call with
    | [_; (_, content)] => Returns ("GEN:" +:+ content)
    | _ => Throws (Exn "ValueError" "expected two messages")
    end.

(** A generation service that rejects the token. *)
Definition gen_fail : list gen_call → gen_call → outcome string :=
  fun _ _ => Throws (Exn "HfHubHTTPError" "401 Unauthorized").

(** A generation service that always answers with the same text. *)
Definition gen_const (text : string) : list gen_call → gen_call → outcome string :=
  fun _ _ => Returns text.

(** The last character of a URL: ['4'] and ['2'] for the two top-tracks
    URLs, ['0'] for the related-artists URL. *)
Fixpoint last_char (s : string) : option Ascii.ascii :=
  match s with
  | EmptyString => None
  | String c rest =>
      match last_char rest with
      | Some c' => Some c'
      | None => Some c
      end
  end.

(** A table whose answers to URLs ending in [limit=4] and [limit=2]
    carry at most that many entries. *)
Definition within_limits (table : list (string * json)) : bool :=
  forallb
    (λ entry,
       match last_char entry.1 with
       | Some "4"%char => length (data_items entry.2) <=? 4
       | Some "2"%char => length (data_items entry.2) <=? 2
       | _ => true
       end)
    table.

End Scenarios.

(** ** More about what a run leaves behind *)

(** A statement that prints nothing. *)
Definition keeps_stdout {A} (m : M A) : Prop :=
  ∀ w, stdout (m w).2 = stdout w.

(** The items of a response and the titles read from them: the
    ["title"] of each item, in the order of the items. *)
Definition titles_match (items titles : list json) : Prop :=
  Forall2 (λ t title, Py.getitem_key t "title" = Ok title) items titles.

(** What [main] displays up to the two inputs, and under them when no
    token is given. *)
Definition header_page : list ui_event :=
  [StPageConfig "Интеллектуальная МАС" "🎵" "wide";
   StTitle "🎵 Интеллектуальная Система Генерации Плейлистов";
   StMarkdown "### Лабораторная работа: Мультиагентные системы";
   StMarkdown "**Выполнили:** Грудницкий и Соловьёв";
   StMarkdown "---";
   StHeader "Конфигурация Системы"].

(** A dict without the key ["data"]. *)
Definition lacks_data (response : json) : Prop :=
  ∃ m, response = JDict m ∧ m !! "data" = None.

(** The text of a title that is a [str]. *)
Definition title_text (t : json) : string :=
  match t with JStr s => s | _ => "" end.

(** The line of the context for one related artist. *)
Definition context_line (py_repr : json → string) (s : related_artist) : string :=
  "- " +:+ py_str py_repr (name s) +:+ " (Треки: " +:+
  String.concat ", " (title_text <$> tracks s) +:+ ")" +:+ Py.nl.

(** The whole context: the block of the target artist, the heading of
    the related artists, one line for each of them. *)
Definition context_text (py_repr : json → string) (md : metadata) : string :=
  (("ЦЕЛЕВАЯ СУЩНОСТЬ: " +:+ py_str py_repr (source_artist md) +:+
    " (Топ-треки: " +:+ String.concat ", " (title_text <$> source_tracks md) +:+
    ")" +:+ Py.nl) +:+
   ("СВЯЗАННЫЕ СУЩНОСТИ:" +:+ Py.nl)) +:+
  String.concat "" (context_line py_repr <$> similar md).

(** More stub catalogs. *)
Module MoreScenarios.

(** The answers about "Solo" are dicts without ["data"]. *)
Definition bare_catalog :=
  Scenarios.table_catalog
    [("https://api.deezer.com/search/artist?q=Solo",
      Scenarios.data_of [Scenarios.artist 7 "Solo"]);
     ("https://api.deezer.com/artist/7/top?limit=4",
      Scenarios.obj [("total", JInt 0)]);
     ("https://api.deezer.com/artist/7/related?limit=20", Scenarios.obj [])].

(** The only match for "Ghost" has a name and no id. *)
Definition anonymous_catalog :=
  Scenarios.table_catalog
    [("https://api.deezer.com/search/artist?q=Ghost",
      Scenarios.data_of [Scenarios.obj [("name", JStr "Ghost")]])].

(** "Duo" has two related artists, the second without a name. *)
Definition nameless_related : list json :=
  [Scenarios.artist 9 "Other"; Scenarios.obj [("id", JInt 10)]].

Definition nameless_catalog :=
  Scenarios.table_catalog
    [("https://api.deezer.com/search/artist?q=Duo",
      Scenarios.data_of [Scenarios.artist 8 "Duo"]);
     ("https://api.deezer.com/artist/8/top?limit=4",
      Scenarios.data_of [Scenarios.track "One"]);
     ("https://api.deezer.com/artist/8/related?limit=20",
      Scenarios.data_of nameless_related);
     ("https://api.deezer.com/artist/9/top?limit=2",
      Scenarios.data_of [Scenarios.track "Nine"]);
     ("https://api.deezer.com/artist/10/top?limit=2",
      Scenarios.data_of [Scenarios.track "Ten"])].

(** A generation service that fails on its second call only. *)
Definition gen_fail_second : list gen_call → gen_call → outcome string :=
  fun h _ =>
    if length h =? 1
    then Throws (Exn "HfHubHTTPError" "503 Service Unavailable")
    else Returns "ok".

End MoreScenarios.

(** The same world with other random draws ahead. *)
Definition with_rng (w : world) (draws : list nat) : world :=
  World (requests_log w) draws (stdout w) (generation_log w) (page w).

(** A statement that draws no random number and whose run does not
    depend on the draws ahead; a value it returns satisfies [Q]. *)
Definition rng_blind {A} (Q : A → Prop) (m : M A) : Prop :=
  ∀ w,
    (∀ draws, m (with_rng w draws) = ((m w).1, with_rng (m w).2 draws)) ∧
    (∀ a, (m w).1 = Ok a → Q a).

(** A catalog that never lists more than five related artists:
    whatever it sends under ["data"] for a related-artists request has
    length at most five, if it has a length. *)
Definition few_related (py_repr : json → string)
           (catalog : list string → string → outcome json) : Prop :=
  ∀ h id response d n,
    catalog h (related_url py_repr id) = Returns response →
    Py.dict_get response "data" (JList []) = Ok d →
    Py.len d = Ok n →
    n ≤ 5.

(** A table whose answers to URLs ending in [limit=20] carry at most
    five entries. *)
Definition few_related_table (table : list (string * json)) : bool :=
  forallb
    (λ entry,
       match Scenarios.last_char entry.1 with
       | Some "0"%char =>
           match Py.dict_get entry.2 "data" (JList []) with
           | Ok d => match Py.len d with Ok n => n <=? 5 | _ => true end
           | _ => true
           end
       | _ => true
       end)
    table.

(** ** Sampling *)

Lemma issued_refl w : issued w w [].
Proof. unfold issued. by rewrite app_nil_r. Qed.

Lemma issued_trans w1 w2 w3 es1 es2 :
  issued w1 w2 es1 → issued w2 w3 es2 → issued w1 w3 (es1 ++ es2).
Proof.
  intros (H1 & H2 & H3) (K1 & K2 & K3). unfold issued.
  rewrite K1, H1, K2, H2, K3, H3, app_assoc. done.
Qed.

Lemma issued_nil_trans w1 w2 w3 es :
  issued w1 w2 [] → issued w2 w3 es → issued w1 w3 es.
Proof. intros H1 H2. apply (issued_trans _ _ _ _ _ H1 H2). Qed.

Lemma new_requests_issued w w' es : issued w w' es → new_requests w w' = es.
Proof. intros [I _]. unfold new_requests. by rewrite I, drop_app_length. Qed.

Lemma randbelow_run n w :
  ∃ j w', randbelow n w = (Ok j, w') ∧ issued w w' [] ∧ (0 < n → j < n).
Proof.
  unfold randbelow. destruct (rng w) as [|x xs] eqn:E.
  - exists 0, w. split_and!; [done | apply issued_refl | done].
  - eexists _, _. split_and!; [done | | ].
    + unfold issued. simpl. by rewrite app_nil_r.
    + intros Hn. apply Nat.mod_upper_bound. lia.
Qed.

(** The selection loop returns the entries at [k] pairwise different
    positions among the first [m] of the pool. *)
Lemma sample_loop_positions k : ∀ pool m w,
  k ≤ m → m ≤ length pool →
  ∃ idxs w',
    sample_loop pool m k w = (Ok ((λ i, pool !!! i) <$> idxs), w') ∧
    issued w w' [] ∧
    length idxs = k ∧ NoDup idxs ∧ Forall (λ i, i < m) idxs.
Proof.
  induction k as [|k IH]; intros pool m w Hk Hm.
  - exists [], w. simpl. split_and!; auto using issued_refl, NoDup_nil_2.
  - destruct (randbelow_run m w) as (j & w1 & Hj & Hw1 & Hlt).
    specialize (Hlt ltac:(lia)).
    set (pool' := <[j := pool !!! (m - 1)]> pool).
    destruct (IH pool' (m - 1) w1) as (idxs & w2 & Hrun & Hw2 & Hlen & Hnd & Hall).
    { lia. }
    { unfold pool'. rewrite length_insert. lia. }
    set (back := λ i, if decide (i = j) then m - 1 else i).
    exists (j :: (back <$> idxs)), w2.
    rewrite Forall_forall in Hall.
    assert (Hback : ∀ i, i ∈ idxs → pool' !!! i = pool !!! back i).
    { intros i Hi. specialize (Hall i Hi). unfold back, pool'.
      destruct (decide (i = j)) as [->|Hne].
      - apply list_lookup_total_insert_eq. lia.
      - by apply list_lookup_total_insert_ne. }
    split_and!.
    + simpl. unfold bind. rewrite Hj. fold pool'. rewrite Hrun. simpl.
      unfold ret. do 3 f_equal. rewrite <- list_fmap_compose.
      apply list_fmap_ext. intros ? i Hi. apply Hback.
      by eapply list_elem_of_lookup_2.
    + by eapply issued_nil_trans.
    + simpl. by rewrite length_fmap, Hlen.
    + apply NoDup_cons. split.
      * intros Hin. apply list_elem_of_fmap in Hin as (i & Heq & Hi).
        specialize (Hall i Hi). unfold back in Heq.
        destruct (decide (i = j)); lia.
      * apply NoDup_fmap_2_strong; [|done].
        intros x y Hx Hy. pose proof (Hall x Hx). pose proof (Hall y Hy).
        unfold back. repeat case_decide; lia.
    + apply Forall_cons. split; [done|].
      apply Forall_fmap, Forall_forall. intros i Hi. specialize (Hall i Hi).
      unfold back. simpl. case_decide; lia.
Qed.

(** Entries at pairwise different positions of a duplicate-free list are
    pairwise different. *)
Lemma picked_NoDup (l : list json) (idxs : list nat) :
  NoDup l → NoDup idxs → Forall (λ i, i < length l) idxs →
  NoDup ((λ i, l !!! i) <$> idxs).
Proof.
  intros Hl Hi Hall. rewrite Forall_forall in Hall.
  apply NoDup_fmap_2_strong; [|done].
  intros x y Hx Hy Heq.
  destruct (lookup_lt_is_Some_2 l x (Hall x Hx)) as [a Ha].
  destruct (lookup_lt_is_Some_2 l y (Hall y Hy)) as [b Hb].
  rewrite (list_lookup_total_correct _ _ _ Ha) in Heq.
  rewrite (list_lookup_total_correct _ _ _ Hb) in Heq. subst b.
  exact (NoDup_lookup l x y a Hl Ha Hb).
Qed.

(** What lines 50-53 keep of a list of related artists. *)
Lemma select_related_list (related_data_all : list json) (w : world) :
  (5 < length related_data_all →
   ∃ kept idxs w',
     select_related (JList related_data_all) w = (Ok (JList kept), w') ∧
     length kept = 5 ∧
     NoDup idxs ∧
     Forall2 (λ i x, related_data_all !! i = Some x) idxs kept ∧
     (∀ x, x ∈ kept → x ∈ related_data_all) ∧
     (NoDup related_data_all → NoDup kept))
  ∧ (length related_data_all ≤ 5 →
     select_related (JList related_data_all) w = (Ok (JList related_data_all), w)).
Proof.
  split; intros Hlen; unfold select_related, bind, lift, Py.len.
  - destruct (Nat.ltb_spec 5 (length related_data_all)) as [_|?]; [|lia].
    unfold random_sample.
    destruct (Nat.ltb_spec (length related_data_all) 5) as [?|_]; [lia|].
    destruct (sample_loop_positions 5 related_data_all (length related_data_all) w)
      as (idxs & w' & Hrun & _ & Hl & Hnd & Hall); [lia | lia |].
    rewrite Hrun. unfold ret.
    exists ((λ i, related_data_all !!! i) <$> idxs), idxs, w'.
    assert (Hlook : Forall2 (λ i x, related_data_all !! i = Some x) idxs
                      ((λ i, related_data_all !!! i) <$> idxs)).
    { apply Forall2_fmap_r, Forall_Forall2_diag.
      eapply Forall_impl; [exact Hall|]. simpl. intros i Hi.
      by apply list_lookup_lookup_total_lt. }
    split_and!; [done | by rewrite length_fmap | done | done | | ].
    + intros x Hx. apply list_elem_of_fmap in Hx as (i & -> & Hi).
      rewrite Forall_forall in Hall.
      apply list_elem_of_lookup_total_2. by apply Hall.
    + intros Hnd'. by apply picked_NoDup.
  - destruct (Nat.ltb_spec 5 (length related_data_all)) as [?|_]; [lia|done].
Qed.

(** Lines 50-53 on a list: a list of entries of that list, and the list
    itself when it is short. *)
Lemma select_related_subset (related : list json) w :
  ∃ kept w',
    select_related (JList related) w = (Ok (JList kept), w') ∧
    (∀ x, x ∈ kept → x ∈ related) ∧
    (length related ≤ 5 → kept = related).
Proof.
  destruct (select_related_list related w) as [Hlong Hshort].
  destruct (decide (5 < length related)) as [Hlt|Hle].
  - destruct (Hlong Hlt) as (kept & idxs & w' & Hrun & _ & _ & _ & Hsub & _).
    exists kept, w'. split_and!; [done|done|lia].
  - exists related, w. split_and!; [apply Hshort; lia|done|done].
Qed.

Lemma listing_dict_get response items dflt :
  listing response items → Py.dict_get response "data" dflt = Ok (JList items).
Proof. intros (m & -> & Hm). simpl. by rewrite Hm. Qed.

Lemma listing_getitem response items :
  listing response items → Py.getitem_key response "data" = Ok (JList items).
Proof. intros (m & -> & Hm). simpl. by rewrite Hm. Qed.

Lemma listing_unique response items items' :
  listing response items → listing response items' → items = items'.
Proof. intros (m & -> & Hm) (m' & [= <-] & Hm'). congruence. Qed.

Example sample_demo :
  random_sample (JList (JInt <$> [10; 11; 12; 13; 14; 15; 16]%Z)) 5
    (World [] [3; 3; 3; 9; 0; 1] [] [] [])
  = (Ok [JInt 13; JInt 16; JInt 15; JInt 11; JInt 10], World [] [1] [] [] []).
Proof. reflexivity. Qed.

(** ** Rules for the requests a statement issues *)

Lemma throws_last_nil {A} (r : res A) : throws_last [] r.
Proof. intros i u e H. by rewrite lookup_nil in H. Qed.

Lemma throws_last_app {A B} es1 es2 (a : A) (r : res B) :
  throws_last es1 (Ok a) → throws_last es2 r → throws_last (es1 ++ es2) r.
Proof.
  intros H1 H2 i u e Hi. rewrite lookup_app in Hi.
  destruct (es1 !! i) as [p|] eqn:E.
  - inversion Hi; subst. by destruct (H1 _ _ _ E) as [_ ?].
  - destruct (decide (i < length es1)) as [Hlt|Hge].
    + apply lookup_lt_is_Some_2 in Hlt as [? ?]. congruence.
    + destruct (H2 _ _ _ Hi) as [Hl ->]. split; [|done].
      rewrite length_app. lia.
Qed.

Lemma Py_dict_get_not_stopped v key d : Py.dict_get v key d ≠ Stopped.
Proof. by destruct v. Qed.

Lemma Py_getitem_key_not_stopped v key : Py.getitem_key v key ≠ Stopped.
Proof. destruct v; simpl; try done. by destruct (_ !! _). Qed.

Lemma Py_getitem_0_not_stopped v : Py.getitem_0 v ≠ Stopped.
Proof. destruct v as [| | | | s | l |]; simpl; try done; by destruct (_ !! _). Qed.

Lemma Py_len_not_stopped v : Py.len v ≠ Stopped.
Proof. by destruct v. Qed.

Lemma Py_iter_not_stopped v : Py.iter v ≠ Stopped.
Proof. by destruct v. Qed.

Lemma Py_join_from_not_stopped sep items : ∀ i, Py.join_from i sep items ≠ Stopped.
Proof.
  induction items as [|x rest IH]; intros i; simpl; [done|].
  destruct x; try done. destruct rest; [done|].
  specialize (IH (S i)). by destruct (Py.join_from (S i) sep (_ :: _)).
Qed.

Lemma titles_of_not_stopped items : titles_of items ≠ Stopped.
Proof.
  induction items as [|t rest IH]; simpl; [done|].
  pose proof (Py_getitem_key_not_stopped t "title").
  destruct (Py.getitem_key t "title"); try done.
  by destruct (titles_of rest).
Qed.

Lemma titles_of_length items ts : titles_of items = Ok ts → length ts = length items.
Proof.
  revert ts. induction items as [|t rest IH]; simpl; intros ts H.
  - by inversion H.
  - destruct (Py.getitem_key t "title"); try done.
    destruct (titles_of rest) as [ts'| |]; try done.
    inversion H; subst. simpl. f_equal. by apply IH.
Qed.

Create HintDb py discriminated.
#[local] Hint Resolve Py_dict_get_not_stopped Py_getitem_key_not_stopped
  Py_getitem_0_not_stopped Py_len_not_stopped Py_iter_not_stopped
  titles_of_not_stopped : py.

Section Traces.

Variable py_repr : json → string.
Variable catalog : list string → string → outcome json.

Lemma traced_ret {A} (Q : A → Prop) (a : A) : Q a → traced catalog 0 Q (ret a).
Proof.
  intros HQ w. exists (Ok a), w, []. unfold answered.
  split_and!; auto using issued_refl, throws_last_nil.
  intros ? [= <-]. done.
Qed.

Lemma traced_lift {A} (Q : A → Prop) (r : res A) :
  r ≠ Stopped → (∀ a, r = Ok a → Q a) → traced catalog 0 Q (lift r).
Proof.
  intros Hr HQ w. exists r, w, []. unfold answered.
  split_and!; auto using issued_refl, throws_last_nil.
Qed.

Lemma traced_raise {A} (Q : A → Prop) (e : exn) : traced catalog 0 Q (raise e).
Proof.
  intros w. exists (Raised e), w, []. unfold answered.
  split_and!; auto using issued_refl, throws_last_nil. done.
Qed.

Lemma traced_weaken {A} n n' (Q Q' : A → Prop) m :
  n ≤ n' → (∀ a, Q a → Q' a) → traced catalog n Q m → traced catalog n' Q' m.
Proof.
  intros Hn HQ H w. destruct (H w) as (r & w' & es & ? & ? & ? & ? & ? & ? & ?).
  exists r, w', es. split_and!; auto. lia.
Qed.

Lemma traced_bind {A B} n1 n2 (Q1 : A → Prop) (Q2 : B → Prop) m k :
  traced catalog n1 Q1 m → (∀ a, Q1 a → traced catalog n2 Q2 (k a)) →
  traced catalog (n1 + n2) Q2 (bind m k).
Proof.
  intros Hm Hk w.
  destruct (Hm w) as (r1 & w1 & es1 & E1 & I1 & S1 & L1 & T1 & A1 & P1).
  unfold bind. rewrite E1. destruct r1 as [a|e|]; [|clear Hk|done].
  - destruct (Hk a (P1 a eq_refl) w1)
      as (r2 & w2 & es2 & E2 & I2 & S2 & L2 & T2 & A2 & P2).
    exists r2, w2, (es1 ++ es2). split_and!; auto.
    + by eapply issued_trans.
    + rewrite length_app. lia.
    + by eapply throws_last_app.
    + by apply Forall_app.
  - exists (Raised e), w1, es1. split_and!; auto; [lia| |done].
    intros i u e' Hi. destruct (T1 _ _ _ Hi) as [? [= ->]]. done.
Qed.

Lemma traced_bind0 {A B} n (Q1 : A → Prop) (Q2 : B → Prop) m k :
  traced catalog 0 Q1 m → (∀ a, Q1 a → traced catalog n Q2 (k a)) →
  traced catalog n Q2 (bind m k).
Proof. apply (traced_bind 0 n). Qed.

Lemma requests_get_json_run url w :
  let out := catalog (requests_log w).*1 url in
  requests_get_json catalog url w
  = (match out with Returns v => Ok v | Throws e => Raised e end,
     World (requests_log w ++ [(url, out)]) (rng w) (stdout w)
           (generation_log w) (page w)).
Proof. done. Qed.

Lemma traced_request (Q : json → Prop) url :
  (∀ h v, catalog h url = Returns v → Q v) →
  traced catalog 1 Q (requests_get_json catalog url).
Proof.
  intros HQ w. rewrite requests_get_json_run. simpl.
  set (out := catalog (requests_log w).*1 url).
  eexists _, _, [(url, out)]. split_and!; [done|done| | | | |].
  - by destruct out.
  - simpl. lia.
  - intros [|i] u e Hi; [|done]. simpl in Hi. inversion Hi as [[Hu Ho]].
    rewrite Ho. done.
  - apply Forall_singleton. by eexists.
  - intros a Ha. apply (HQ (requests_log w).*1).
    fold out. destruct out; congruence.
Qed.

Lemma traced_randbelow n : traced catalog 0 (λ _, True) (randbelow n).
Proof.
  intros w. destruct (randbelow_run n w) as (j & w' & E & I & _).
  exists (Ok j), w', []. unfold answered.
  split_and!; auto using throws_last_nil; done.
Qed.

Lemma traced_sample_loop k pool m :
  k ≤ m → m ≤ length pool →
  traced catalog 0 (λ picked, length picked = k) (sample_loop pool m k).
Proof.
  intros Hk Hm w.
  destruct (sample_loop_positions k pool m w Hk Hm)
    as (idxs & w' & E & I & Hl & _ & _).
  eexists _, w', []. unfold answered.
  split_and!; eauto using throws_last_nil; try done.
  intros a [= <-]. by rewrite length_fmap.
Qed.

Lemma traced_random_sample population k :
  traced catalog 0 (λ picked, length picked = k) (random_sample population k).
Proof.
  destruct population; simpl; try apply traced_raise.
  - destruct (Nat.ltb_spec (length (JStr <$> Py.chars s)) k).
    + apply traced_raise.
    + by apply traced_sample_loop.
  - destruct (Nat.ltb_spec (length l) k).
    + apply traced_raise.
    + by apply traced_sample_loop.
Qed.

(** Whatever the catalog sent as related artists, at most five items
    are kept for the loop. *)
Lemma traced_select_related v :
  traced catalog 0
    (λ kept, ∀ items, Py.iter kept = Ok items → length items ≤ 5)
    (select_related v).
Proof.
  unfold select_related.
  eapply traced_bind0 with (Q1 := λ n, Py.len v = Ok n).
  { apply traced_lift; auto with py. }
  intros n Hn. destruct (Nat.ltb_spec 5 n) as [Hlt|Hle].
  - eapply traced_bind0; [apply traced_random_sample|].
    intros picked Hp. simpl in Hp. apply traced_ret. simpl.
    intros items [= <-]. lia.
  - apply traced_ret. intros items Hi.
    destruct v; simpl in *; try done.
    + inversion Hn; inversion Hi; subst. by rewrite length_fmap.
    + inversion Hn; inversion Hi; subst. done.
    + inversion Hn; inversion Hi; subst.
      by rewrite length_fmap, length_map_to_list.
Qed.

Lemma traced_titles (Q : list json → Prop) tracks_data :
  (∀ items ts, Py.iter tracks_data = Ok items → titles_of items = Ok ts → Q ts) →
  traced catalog 0 Q (titles tracks_data).
Proof.
  intros HQ. unfold titles.
  eapply traced_bind0 with (Q1 := λ items, Py.iter tracks_data = Ok items).
  { apply traced_lift; auto with py. }
  intros items Hi. apply traced_lift; eauto with py.
Qed.

End Traces.

(** ** Stepping through a run that returns *)

Lemma bind_Ok {A B} (m : M A) (k : A → M B) w b w' :
  bind m k w = (Ok b, w') → ∃ a w1, m w = (Ok a, w1) ∧ k a w1 = (Ok b, w').
Proof.
  unfold bind. destruct (m w) as [[a|e|] w1]; try done. eauto.
Qed.

Lemma lift_Ok {A} (r : res A) w a w1 : lift r w = (Ok a, w1) → r = Ok a ∧ w1 = w.
Proof. unfold lift. by intros [= -> ->]. Qed.

Lemma ret_Ok {A} (x : A) w a w1 : ret x w = (Ok a, w1) → a = x ∧ w1 = w.
Proof. unfold ret. by intros [= -> ->]. Qed.

Lemma titles_Ok tracks_data w ts w1 :
  titles tracks_data w = (Ok ts, w1) →
  w1 = w ∧ ∃ items, Py.iter tracks_data = Ok items ∧ titles_of items = Ok ts.
Proof.
  unfold titles. intros H.
  apply bind_Ok in H as (items & w2 & H1 & H2).
  apply lift_Ok in H1 as [H1 ->]. apply lift_Ok in H2 as [H2 ->]. eauto.
Qed.

Section Runs.

Variable py_repr : json → string.
Variable catalog : list string → string → outcome json.

Lemma request_Ok url w v w1 :
  requests_get_json catalog url w = (Ok v, w1) →
  catalog (requests_log w).*1 url = Returns v ∧
  w1 = World (requests_log w ++ [(url, Returns v)]) (rng w) (stdout w)
             (generation_log w) (page w).
Proof.
  rewrite requests_get_json_run. simpl.
  destruct (catalog _ url) as [v'|e]; [|done]. by intros [= -> <-].
Qed.

Lemma request_issued url w v w1 :
  requests_get_json catalog url w = (Ok v, w1) →
  issued w w1 [(url, Returns v)] ∧ (requests_log w1).*1 = (requests_log w).*1 ++ [url].
Proof.
  intros H. apply request_Ok in H as [_ ->]. unfold issued. simpl.
  by rewrite fmap_app.
Qed.

Lemma traced_related_loop items : ∀ acc,
  traced catalog (length items) (λ _, True)
    (related_loop py_repr catalog items acc).
Proof.
  induction items as [|rel_artist rest IH]; intros acc; simpl.
  - by apply traced_ret.
  - eapply traced_bind0; [apply traced_lift with (Q := λ _, True); auto with py|].
    intros r_id _.
    apply (traced_bind catalog 1 (length rest) (λ _, True));
      [by apply traced_request|].
    intros r_response _.
    eapply traced_bind0; [apply traced_lift with (Q := λ _, True); auto with py|].
    intros r_tracks_data _.
    eapply traced_bind0; [apply traced_titles with (Q := λ _, True); auto|].
    intros r_tracks _.
    eapply traced_bind0; [apply traced_lift with (Q := λ _, True); auto with py|].
    intros r_name _. apply IH.
Qed.

Lemma select_related_Ok v w kept w1 :
  select_related v w = (Ok kept, w1) →
  issued w w1 [] ∧ (requests_log w1) = (requests_log w) ∧
  ∀ items, Py.iter kept = Ok items → length items ≤ 5.
Proof.
  intros H.
  destruct (traced_select_related catalog v w)
    as (r & w' & es & E & I & _ & L & _ & _ & P).
  rewrite H in E. inversion E; subst.
  destruct es; [|simpl in L; lia].
  split_and!; [done| |by apply P].
  destruct I as [I _]. by rewrite app_nil_r in I.
Qed.

Lemma related_loop_Ok items : ∀ acc w sim w',
  related_loop py_repr catalog items acc w = (Ok sim, w') →
  ∃ news es,
    sim = acc ++ news ∧ issued w w' es ∧
    Forall3 (loop_step py_repr catalog) items es news.
Proof.
  induction items as [|rel_artist rest IH]; intros acc w sim w' H; simpl in H.
  - apply ret_Ok in H as [-> ->]. exists [], [].
    rewrite app_nil_r. split_and!; [done | apply issued_refl | constructor].
  - apply bind_Ok in H as (r_id & w1 & H1 & H).
    apply lift_Ok in H1 as [Hid ->].
    apply bind_Ok in H as (r_response & w2 & H2 & H).
    pose proof (request_Ok _ _ _ _ H2) as [Hcat _].
    apply request_issued in H2 as [I2 _].
    apply bind_Ok in H as (r_tracks_data & w3 & H3 & H).
    apply lift_Ok in H3 as [Hdata ->].
    apply bind_Ok in H as (r_tracks & w4 & H4 & H).
    apply titles_Ok in H4 as [-> (r_items & Hiter & Htitles)].
    apply bind_Ok in H as (r_name & w5 & H5 & H).
    apply lift_Ok in H5 as [Hname ->].
    apply IH in H as (news & es & -> & I & F).
    exists (RelatedArtist r_name r_tracks :: news),
           ((r_tracks_url py_repr r_id, Returns r_response) :: es).
    split_and!.
    + by rewrite <- app_assoc.
    + apply (issued_trans _ _ _ [_] es I2 I).
    + constructor; [|done].
      exists r_id, r_response, r_tracks_data, r_items, (requests_log w).*1.
      by split_and!.
Qed.

End Runs.

(** ** The fetch *)

Section Fetch.

Variable py_repr : json → string.
Variable catalog : list string → string → outcome json.

#[local] Abbreviation body := (fetch_body py_repr catalog).
#[local] Abbreviation fetch := (fetch_artist_metadata py_repr catalog).

(** What follows the search request in the [try] body. *)
Lemma traced_after_search response :
  traced catalog 7 (λ r, ∀ md, r = Some md → length (similar md) ≤ 5)
    (found <- lift (Py.dict_get response "data" JNull) ;;
     if negb (Py.truthy found) then ret None else
     data <- lift (Py.getitem_key response "data") ;;
     artist_obj <- lift (Py.getitem_0 data) ;;
     artist_id <- lift (Py.getitem_key artist_obj "id") ;;
     real_name <- lift (Py.getitem_key artist_obj "name") ;;
     tracks_response <- requests_get_json catalog (tracks_url py_repr artist_id) ;;
     tracks_data <- lift (Py.dict_get tracks_response "data" (JList [])) ;;
     source_tracks <- titles tracks_data ;;
     related_response <- requests_get_json catalog (related_url py_repr artist_id) ;;
     related_data_all <- lift (Py.dict_get related_response "data" (JList [])) ;;
     related_data <- select_related related_data_all ;;
     related_items <- lift (Py.iter related_data) ;;
     similar_artists_info <- related_loop py_repr catalog related_items [] ;;
     ret (Some (Metadata real_name source_tracks similar_artists_info))).
Proof.
  eapply traced_bind0; [apply traced_lift with (Q := λ _, True); auto with py|].
  intros found _. destruct (negb (Py.truthy found)).
  { apply traced_weaken with (n := 0) (Q := λ r, r = None); [lia|congruence|].
    by apply traced_ret. }
  eapply traced_bind0; [apply traced_lift with (Q := λ _, True); auto with py|].
  intros data _.
  eapply traced_bind0; [apply traced_lift with (Q := λ _, True); auto with py|].
  intros artist_obj _.
  eapply traced_bind0; [apply traced_lift with (Q := λ _, True); auto with py|].
  intros artist_id _.
  eapply traced_bind0; [apply traced_lift with (Q := λ _, True); auto with py|].
  intros real_name _.
  apply (traced_bind catalog 1 6 (λ _, True)); [by apply traced_request|].
  intros tracks_response _.
  eapply traced_bind0; [apply traced_lift with (Q := λ _, True); auto with py|].
  intros tracks_data _.
  eapply traced_bind0; [apply traced_titles with (Q := λ _, True); auto|].
  intros source_tracks _.
  apply (traced_bind catalog 1 5 (λ _, True)); [by apply traced_request|].
  intros related_response _.
  eapply traced_bind0; [apply traced_lift with (Q := λ _, True); auto with py|].
  intros related_data_all _.
  eapply traced_bind0; [apply traced_select_related|].
  intros related_data Hkept. simpl in Hkept.
  eapply traced_bind0 with (Q1 := λ items, length items ≤ 5).
  { apply traced_lift; auto with py. }
  intros related_items Hlen.
  apply (traced_bind catalog 5 0
           (λ sim, ∃ w w', related_loop py_repr catalog related_items [] w = (Ok sim, w'))).
  - intros w.
    destruct (traced_related_loop py_repr catalog related_items [] w)
      as (r & w' & es & E & I & NS & L & T & A & _).
    exists r, w', es. split_and!; auto; [lia|].
    intros sim ->. eauto.
  - intros sim (w & w' & Hrun). apply traced_ret.
    intros md [= <-]. simpl.
    apply related_loop_Ok in Hrun as (news & es' & -> & _ & F).
    simpl. apply Forall3_length_lr in F. lia.
Qed.

(** The [try] body: one search request, then at most seven more. *)
Lemma fetch_body_run artist_name w :
  ∃ r w' es,
    body artist_name w = (r, w') ∧
    issued w w'
      ((search_url artist_name,
        catalog (requests_log w).*1 (search_url artist_name)) :: es) ∧
    r ≠ Stopped ∧ length es ≤ 7 ∧
    throws_last
      ((search_url artist_name,
        catalog (requests_log w).*1 (search_url artist_name)) :: es) r ∧
    (∀ md, r = Ok (Some md) → length (similar md) ≤ 5).
Proof.
  unfold fetch_body. unfold bind at 1.
  rewrite requests_get_json_run. simpl.
  set (url := search_url artist_name).
  set (out := catalog (requests_log w).*1 url).
  set (w1 := World _ _ _ _ _).
  assert (I1 : issued w w1 [(url, out)]) by done.
  destruct out as [response|e] eqn:Eout.
  - destruct (traced_after_search response w1)
      as (r & w' & es & E & I & NS & L & T & _ & P).
    exists r, w', es. split_and!; auto.
    + apply (issued_trans _ _ _ [_] es I1 I).
    + apply (throws_last_app [(url, Returns response)] es tt); [|done].
      intros [|i] u e' Hi; simpl in Hi; [done|by destruct i].
    + intros md ->. by apply (P (Some md)).
  - exists (Raised e), w1, [].
    split_and!; [done|done|done|simpl; lia| |done].
    intros [|i] u e' Hi; simpl in Hi; [|by destruct i].
    by inversion Hi.
Qed.

(** [fetch_artist_metadata] in terms of its [try] body. *)
Lemma fetch_artist_metadata_unfold artist_name w :
  fetch artist_name w =
  match body artist_name w with
  | (Ok r, w') => (Ok r, w')
  | (Raised e, w') =>
      (Ok None, World (requests_log w') (rng w')
                      (stdout w' ++ ["API Error: " +:+ exn_text e])
                      (generation_log w') (page w'))
  | (Stopped, w') => (Stopped, w')
  end.
Proof.
  unfold fetch_artist_metadata, try_except.
  by destruct (body artist_name w) as [[r|e|] w'].
Qed.

(** The fetch always returns: metadata or [None]. *)
Lemma fetch_artist_metadata_run artist_name w :
  ∃ r w' es,
    fetch artist_name w = (Ok r, w') ∧
    issued w w' es ∧ 1 ≤ length es ≤ 8 ∧
    (∀ i u e, es !! i = Some (u, Throws e) → S i = length es ∧ r = None) ∧
    (∀ md, r = Some md →
       body artist_name w = (Ok (Some md), w') ∧ length (similar md) ≤ 5) ∧
    (∀ e wb, body artist_name w = (Raised e, wb) → r = None).
Proof.
  rewrite fetch_artist_metadata_unfold.
  destruct (fetch_body_run artist_name w)
    as (rb & wb & es & E & I & NS & L & T & P).
  rewrite E. destruct rb as [r|e|]; [| |done].
  - eexists r, wb, _. split_and!; [done|exact I|simpl; lia|simpl; lia| | |].
    + intros i u e Hi. by destruct (T i u e Hi).
    + intros md ->. split; [done|]. by apply P.
    + intros ? ? [=].
  - eexists None, _, _. split_and!; [done| | | | | |].
    + destruct I as (I1 & I2 & I3). split_and!; [exact I1|done|done].
    + simpl; lia.
    + simpl; lia.
    + intros i u e' Hi. by destruct (T i u e' Hi).
    + done.
    + done.
Qed.

End Fetch.

Section FetchResults.

Variable py_repr : json → string.
Variable catalog : list string → string → outcome json.

#[local] Abbreviation body := (fetch_body py_repr catalog).
#[local] Abbreviation fetch := (fetch_artist_metadata py_repr catalog).

Lemma dict_get_truthy_getitem response found data :
  Py.dict_get response "data" JNull = Ok found →
  Py.truthy found = true →
  Py.getitem_key response "data" = Ok data → data = found.
Proof.
  destruct response; simpl; try done.
  destruct (m !! "data") as [d|]; simpl; congruence.
Qed.

(** A run of the [try] body that returns metadata. *)
Lemma fetch_body_Some artist_name w md w' :
  body artist_name w = (Ok (Some md), w') →
  fetched py_repr catalog artist_name w md w'.
Proof.
  unfold fetch_body. intros H.
  apply bind_Ok in H as (response & w1 & H1 & H).
  pose proof (request_Ok _ _ _ _ _ H1) as [Hsearch _].
  apply request_issued in H1 as [I1 Hh1].
  apply bind_Ok in H as (found & w2 & H2 & H).
  apply lift_Ok in H2 as [Hfound ->].
  destruct (Py.truthy found) eqn:Htruthy; simpl in H;
    [|by apply ret_Ok in H as [? _]].
  apply bind_Ok in H as (data & w2 & H2 & H).
  apply lift_Ok in H2 as [Hdata ->].
  assert (data = found) as <- by eauto using dict_get_truthy_getitem.
  apply bind_Ok in H as (artist_obj & w2 & H2 & H).
  apply lift_Ok in H2 as [Hobj ->].
  apply bind_Ok in H as (artist_id & w2 & H2 & H).
  apply lift_Ok in H2 as [Hid ->].
  apply bind_Ok in H as (real_name & w2 & H2 & H).
  apply lift_Ok in H2 as [Hname ->].
  apply bind_Ok in H as (tracks_response & w2 & H2 & H).
  pose proof (request_Ok _ _ _ _ _ H2) as [Htracks _].
  apply request_issued in H2 as [I2 Hh2].
  apply bind_Ok in H as (tracks_data & w3 & H3 & H).
  apply lift_Ok in H3 as [Htdata ->].
  apply bind_Ok in H as (source_tracks & w3 & H3 & H).
  apply titles_Ok in H3 as [-> (track_items & Htiter & Httitles)].
  apply bind_Ok in H as (related_response & w3 & H3 & H).
  pose proof (request_Ok _ _ _ _ _ H3) as [Hrelated _].
  apply request_issued in H3 as [I3 Hh3].
  apply bind_Ok in H as (related_data_all & w4 & H4 & H).
  apply lift_Ok in H4 as [Hrdata ->].
  apply bind_Ok in H as (related_data & w4 & H4 & H).
  pose proof (select_related_Ok catalog _ _ _ _ H4) as (I4 & _ & Hkept).
  apply bind_Ok in H as (related_items & w5 & H5 & H).
  apply lift_Ok in H5 as [Hriter ->].
  apply bind_Ok in H as (similar_artists_info & w5 & H5 & H).
  apply related_loop_Ok in H5 as (news & es & Hsim & I5 & F).
  apply ret_Ok in H as [[= ->] ->]. simpl in Hsim. subst news.
  rewrite Hh1 in Htracks. rewrite Hh2, Hh1, <- app_assoc in Hrelated.
  exists response, data, artist_obj, artist_id, tracks_response, tracks_data,
    track_items, related_response, related_data_all, related_data,
    related_items, es.
  simpl. split_and!; eauto.
  apply (issued_trans _ _ _ [_] (_ :: _ :: es) I1).
  apply (issued_trans _ _ _ [_] (_ :: es) I2).
  apply (issued_trans _ _ _ [_] es I3).
  by eapply issued_nil_trans.
Qed.

(** A run of the [try] body that returns [None]: the search came back
    with nothing under ["data"], and no other request was made. *)
Lemma fetch_body_None artist_name w w' :
  body artist_name w = (Ok None, w') →
  ∃ response found,
    catalog (requests_log w).*1 (search_url artist_name) = Returns response ∧
    Py.dict_get response "data" JNull = Ok found ∧
    Py.truthy found = false ∧
    issued w w' [(search_url artist_name, Returns response)].
Proof.
  unfold fetch_body. intros H.
  apply bind_Ok in H as (response & w1 & H1 & H).
  pose proof (request_Ok _ _ _ _ _ H1) as [Hsearch _].
  apply request_issued in H1 as [I1 _].
  apply bind_Ok in H as (found & w2 & H2 & H).
  apply lift_Ok in H2 as [Hfound ->].
  destruct (Py.truthy found) eqn:Htruthy; simpl in H.
  - repeat (apply bind_Ok in H as (? & ? & _ & H)).
    by apply ret_Ok in H as [? _].
  - apply ret_Ok in H as [_ ->]. eauto 10.
Qed.

Lemma similar_length artist_name w md w' :
  fetched py_repr catalog artist_name w md w' →
  length (new_requests w w') = 3 + length (similar md) ∧ length (similar md) ≤ 5.
Proof.
  intros (response & data & artist_obj & artist_id & tracks_response &
          tracks_data & track_items & related_response & related_data_all &
          related_data & related_items & es & H).
  simpl in H. destruct H as (_&_&_&_&_&_&_&_&_&_&_&_&_&_& Hle & F & (I & _)).
  unfold new_requests. rewrite I, drop_app_length. simpl.
  pose proof (Forall3_length_lr _ _ _ _ F) as Hlr.
  pose proof (Forall3_length_lm _ _ _ _ F) as Hlm. lia.
Qed.

End FetchResults.

(** ** The related artists that are kept *)

Lemma kept_is_sampled (related : list json) w related_data w' :
  select_related (JList related) w = (Ok related_data, w') →
  ∃ kept, related_data = JList kept ∧ sampled_from related kept.
Proof.
  intros Hrun. destruct (select_related_list related w) as [Hlong Hshort].
  destruct (decide (5 < length related)) as [Hlt|Hle].
  - destruct (Hlong Hlt) as (kept & idxs & w0 & H & Hlen & Hnd & Hpos & Hsub & Hdup).
    rewrite Hrun in H. inversion H; subst.
    exists kept. split; [done|]. split; [|lia].
    intros _. split_and!; eauto.
  - rewrite Hshort in Hrun by lia. inversion Hrun; subst.
    exists related. split; [done|]. split; [lia|done].
Qed.

Section Kept.

Variable py_repr : json → string.
Variable catalog : list string → string → outcome json.

Lemma loop_step_names items es sim :
  Forall3 (loop_step py_repr catalog) items es sim →
  Forall2 (λ x s, Py.getitem_key x "name" = Ok (name s)) items sim.
Proof.
  induction 1 as [|x e s xs es' ss Hstep _ IH]; constructor; [|done].
  by destruct Hstep as (? & ? & ? & ? & ? & _ & _ & _ & _ & _ & _ & Hname).
Qed.

(** C1. When the catalog returns a list of more than five related
    artists, the block of [fetch_artist_metadata] that picks the ones to
    keep (lines 50-53) keeps exactly five, taken from five different
    positions of that list, so with no entry drawn twice, and pairwise
    different when the entries of the list are; a list of at most five is
    kept as it is.  The related artists in the metadata the fetch returns
    are the kept ones, in order. *)
Theorem select_related_sample (related_data_all : list json) (w : world) :
  (∃ kept w',
     select_related (JList related_data_all) w = (Ok (JList kept), w') ∧
     sampled_from related_data_all kept)
  ∧ (∀ artist_name md w' u related_response,
       fetch_artist_metadata py_repr catalog artist_name w = (Ok (Some md), w') →
       new_requests w w' !! 2 = Some (u, Returns related_response) →
       listing related_response related_data_all →
       ∃ kept,
         sampled_from related_data_all kept ∧
         Forall2 (λ x s, Py.getitem_key x "name" = Ok (name s)) kept (similar md)).
Proof.
  split.
  - destruct (select_related_subset related_data_all w) as (kept & w' & Hrun & _).
    exists kept, w'. split; [done|].
    apply kept_is_sampled in Hrun as (kept' & [= <-] & Hs). done.
  - intros artist_name md w' u related_response Hrun Hthird Hlist.
    destruct (fetch_artist_metadata_run py_repr catalog artist_name w)
      as (r0 & w0 & es0 & E & _ & _ & _ & Psome & _).
    rewrite Hrun in E. inversion E; subst.
    destruct (Psome md eq_refl) as [Hb _].
    apply fetch_body_Some in Hb
      as (response & data & artist_obj & artist_id & tracks_response &
          tracks_data & track_items & related_response' & related_data & kept0 &
          related_items & es & H).
    simpl in H.
    destruct H as (_&_&_&_&_&_&_&_&_&_&_& Hdata & (wa & wb & Hsel) & Hiter &_& F & I).
    rewrite (new_requests_issued _ _ _ I) in Hthird. simpl in Hthird.
    inversion Hthird; subst.
    rewrite (listing_dict_get _ _ _ Hlist) in Hdata. inversion Hdata; subst.
    apply kept_is_sampled in Hsel as (kept & -> & Hs).
    simpl in Hiter. inversion Hiter; subst.
    exists related_items. split; [done|]. by eapply loop_step_names.
Qed.

End Kept.

Lemma select_related_sample_witness :
  ∃ kept,
    sampled_from Scenarios.echo_related kept ∧
    Forall2 (λ x s, Py.getitem_key x "name" = Ok (name s)) kept
      [RelatedArtist (JStr "R4") [JStr "T4"];
       RelatedArtist (JStr "R6") [JStr "T6"];
       RelatedArtist (JStr "R5") [JStr "T5"];
       RelatedArtist (JStr "R1") [JStr "T1"];
       RelatedArtist (JStr "R3") [JStr "T3"]].
Proof.
  destruct (select_related_sample Scenarios.repr_stub Scenarios.echo_catalog
              Scenarios.echo_related (World [] [3; 3; 3; 9; 0; 1] [] [] []))
    as [_ Hfetch].
  eapply (Hfetch "Echo"
            (Metadata (JStr "Echo") [JStr "Ping"; JStr "Pong"]
               [RelatedArtist (JStr "R4") [JStr "T4"];
                RelatedArtist (JStr "R6") [JStr "T6"];
                RelatedArtist (JStr "R5") [JStr "T5"];
                RelatedArtist (JStr "R1") [JStr "T1"];
                RelatedArtist (JStr "R3") [JStr "T3"]])).
  - vm_compute. reflexivity.
  - vm_compute. reflexivity.
  - eexists. split; [reflexivity|]. vm_compute. reflexivity.
Defined.

(** ** Claims about the fetch *)


Section FetchClaims.

Variable py_repr : json → string.
Variable catalog : list string → string → outcome json.

#[local] Abbreviation body := (fetch_body py_repr catalog).
#[local] Abbreviation fetch := (fetch_artist_metadata py_repr catalog).

(** A search that comes back with nothing under ["data"] ends the
    [try] body at once. *)
Lemma fetch_body_no_results artist_name w response found :
  catalog (requests_log w).*1 (search_url artist_name) = Returns response →
  Py.dict_get response "data" JNull = Ok found →
  Py.truthy found = false →
  body artist_name w
  = (Ok None,
     World (requests_log w ++ [(search_url artist_name, Returns response)])
           (rng w) (stdout w) (generation_log w) (page w)).
Proof.
  intros Hcat Hfound Hfalse. unfold fetch_body. unfold bind at 1.
  rewrite requests_get_json_run. simpl. rewrite Hcat.
  unfold bind, lift. by rewrite Hfound, Hfalse.
Qed.

(** C2. Whenever the [try] body of the fetch ends with an exception
    (whatever raised it: the network, the JSON decoder, a response of
    an unexpected shape), whenever a request it issued threw, and
    whenever the search came back with nothing under ["data"], the
    fetch returns [None]: no metadata, not even partial.  A request that
    threw is the last one issued, so nothing is retried, and a search
    without results is the only request. *)
Theorem fetch_failure_is_null (artist_name : string) (w : world) :
  (∃ e wb, body artist_name w = (Raised e, wb))
  ∨ (∃ u e, (u, Throws e) ∈ new_requests w (fetch artist_name w).2)
  ∨ (∃ response found,
       catalog (requests_log w).*1 (search_url artist_name) = Returns response ∧
       Py.dict_get response "data" JNull = Ok found ∧
       Py.truthy found = false) →
  ∃ w',
    fetch artist_name w = (Ok None, w') ∧
    (∀ i u e, new_requests w w' !! i = Some (u, Throws e) →
              S i = length (new_requests w w')) ∧
    (∀ response found,
       catalog (requests_log w).*1 (search_url artist_name) = Returns response →
       Py.dict_get response "data" JNull = Ok found →
       Py.truthy found = false →
       new_requests w w' = [(search_url artist_name, Returns response)]).
Proof.
  intros Hfail.
  destruct (fetch_artist_metadata_run py_repr catalog artist_name w)
    as (r & w' & es & E & I & L & T & Psome & Praise).
  pose proof (new_requests_issued _ _ _ I) as Hnew.
  assert (r = None) as ->.
  { destruct Hfail as [(e & wb & Hb) | [(u & e & Hin) | (response & found & H1 & H2 & H3)]].
    - by eapply Praise.
    - rewrite E in Hin. simpl in Hin. rewrite Hnew in Hin.
      apply list_elem_of_lookup in Hin as [i Hi]. by destruct (T i u e Hi).
    - rewrite fetch_artist_metadata_unfold in E.
      rewrite (fetch_body_no_results _ _ _ _ H1 H2 H3) in E. by inversion E. }
  exists w'. split_and!; [done| |].
  - rewrite Hnew. intros i u e Hi. by destruct (T i u e Hi).
  - intros response found H1 H2 H3.
    rewrite fetch_artist_metadata_unfold in E.
    rewrite (fetch_body_no_results _ _ _ _ H1 H2 H3) in E.
    inversion E; subst. unfold new_requests. simpl.
    by rewrite drop_app_length.
Qed.

(** C8, as the code has it.  A fetch that returns metadata has issued
    one search, one top-tracks and one related-artists request and one
    more request per related artist kept, of which there are at most
    five: between 3 and 8 requests.  Every fetch, whatever it returns,
    issues at least 1 and at most 8. *)
Theorem fetch_request_count (artist_name : string) (w : world)
        (r : res (option metadata)) (w' : world) :
  fetch artist_name w = (r, w') →
  1 ≤ length (new_requests w w') ≤ 8 ∧
  (∀ md, r = Ok (Some md) →
     length (new_requests w w') = 1 + 1 + 1 + length (similar md) ∧
     length (similar md) ≤ 5 ∧
     3 ≤ length (new_requests w w') ≤ 8).
Proof.
  intros Hrun.
  destruct (fetch_artist_metadata_run py_repr catalog artist_name w)
    as (r0 & w0 & es & E & I & L & _ & Psome & _).
  rewrite Hrun in E. inversion E; subst.
  rewrite (new_requests_issued _ _ _ I). split; [done|].
  intros md [= ->]. destruct (Psome md eq_refl) as [Hb _].
  apply fetch_body_Some, similar_length in Hb.
  rewrite (new_requests_issued _ _ _ I) in Hb. lia.
Qed.

End FetchClaims.

Lemma fetch_failure_is_null_witness :
  ∃ w',
    fetch_artist_metadata Scenarios.repr_stub Scenarios.flaky_catalog "Echo"
      Scenarios.fresh = (Ok None, w') ∧
    length (new_requests Scenarios.fresh w') = 2.
Proof.
  destruct (fetch_failure_is_null Scenarios.repr_stub Scenarios.flaky_catalog
              "Echo" Scenarios.fresh) as (w' & Hrun & Hlast & _).
  - right; left.
    exists "https://api.deezer.com/artist/1/top?limit=4",
           (Exn "ConnectionError" "Max retries exceeded").
    apply list_elem_of_lookup. exists 1. vm_compute. reflexivity.
  - exists w'. split; [exact Hrun|].
    symmetry.
    apply (Hlast 1 "https://api.deezer.com/artist/1/top?limit=4"
             (Exn "ConnectionError" "Max retries exceeded")).
    vm_compute in Hrun. injection Hrun as <-. vm_compute. reflexivity.
Defined.

(** The claim C8 as written fails when the search has no results: one
    request, not three. *)
Lemma fetch_request_count_counterexample :
  ¬ (3 ≤ length (new_requests Scenarios.fresh
                   (fetch_artist_metadata Scenarios.repr_stub
                      Scenarios.nomatch_catalog "Zzyzx123" Scenarios.fresh).2) ≤ 8).
Proof. intros [H _]. vm_compute in H. lia. Qed.

Lemma fetch_request_count_witness :
  1 ≤ length (new_requests (World [] [3; 3; 3; 9; 0; 1] [] [] [])
                (fetch_artist_metadata Scenarios.repr_stub Scenarios.echo_catalog
                   "Echo" (World [] [3; 3; 3; 9; 0; 1] [] [] [])).2) ≤ 8.
Proof.
  eapply (fetch_request_count Scenarios.repr_stub Scenarios.echo_catalog "Echo"
            (World [] [3; 3; 3; 9; 0; 1] [] [] [])).
  apply surjective_pairing.
Defined.

Example echo_fetch_requests :
  length (new_requests (World [] [3; 3; 3; 9; 0; 1] [] [] [])
            (fetch_artist_metadata Scenarios.repr_stub Scenarios.echo_catalog
               "Echo" (World [] [3; 3; 3; 9; 0; 1] [] [] [])).2) = 8.
Proof. vm_compute. reflexivity. Qed.

(** ** Track lists and the limits of the URLs *)

Lemma titles_of_strs {X} (f : X → json) (l : list X) ts :
  (∀ x, Py.is_str (f x) = true) → titles_of (f <$> l) = Ok ts → ts = [].
Proof.
  intros Hf. destruct l as [|x rest]; simpl; [by intros [= <-]|].
  specialize (Hf x). by destruct (f x).
Qed.

(** The titles read from a response are never more than the entries of
    the list it carries. *)
Lemma titles_within response tracks_data items ts :
  Py.dict_get response "data" (JList []) = Ok tracks_data →
  Py.iter tracks_data = Ok items →
  titles_of items = Ok ts →
  length ts ≤ length (data_items response).
Proof.
  destruct response as [| | | | | |m]; simpl; try done.
  intros [= <-] Hiter Htitles.
  destruct (m !! "data") as [d|]; simpl in *.
  - destruct d; simpl in *; try done.
    + inversion Hiter; subst.
      apply titles_of_strs in Htitles as ->; [simpl; lia|done].
    + inversion Hiter; subst. by rewrite (titles_of_length _ _ Htitles).
    + inversion Hiter; subst.
      apply titles_of_strs in Htitles as ->; [simpl; lia|done].
  - inversion Hiter; subst. simpl in Htitles. inversion Htitles. simpl. lia.
Qed.

Section Limits.

Variable py_repr : json → string.
Variable catalog : list string → string → outcome json.

(** C6, as the code has it.  The fetch copies every title the catalog
    sends and cuts nothing off, so the bounds are those of the
    catalog: when the catalog never sends more entries than the
    [limit] of the URL asks for, metadata returned by the fetch has at
    most 4 source tracks and at most 2 tracks per related artist. *)
Theorem track_counts_within_limits (artist_name : string) (w : world)
        (md : metadata) (w' : world) :
  honours_limits py_repr catalog →
  fetch_artist_metadata py_repr catalog artist_name w = (Ok (Some md), w') →
  length (source_tracks md) ≤ 4 ∧
  Forall (λ s, length (tracks s) ≤ 2) (similar md).
Proof.
  intros [Htop Hrel] Hrun.
  destruct (fetch_artist_metadata_run py_repr catalog artist_name w)
    as (r0 & w0 & es0 & E & _ & _ & _ & Psome & _).
  rewrite Hrun in E. inversion E; subst.
  destruct (Psome md eq_refl) as [Hb _].
  apply fetch_body_Some in Hb
    as (response & data & artist_obj & artist_id & tracks_response &
        tracks_data & track_items & related_response & related_data_all &
        related_data & related_items & es & H).
  simpl in H.
  destruct H as (_&_&_&_&_&_& Hcat & Hdata & Hiter & Htitles &_&_&_&_&_& F &_).
  split.
  - pose proof (titles_within _ _ _ _ Hdata Hiter Htitles).
    pose proof (Htop _ _ _ Hcat). lia.
  - clear -F Hrel. induction F as [|x e s xs es' ss Hstep _ IH]; constructor.
    + destruct Hstep as (r_id & r_response & r_tracks_data & r_items & h &
                         _ & _ & Hc & Hd & Hi & Ht & _).
      pose proof (titles_within _ _ _ _ Hd Hi Ht).
      pose proof (Hrel _ _ _ Hc). lia.
    + exact IH.
Qed.

End Limits.

(** The claim C6 as written fails when the catalog ignores [limit=4]:
    all five titles it sends end up in [source_tracks]. *)
Lemma track_counts_counterexample :
  ∃ md w',
    fetch_artist_metadata Scenarios.repr_stub Scenarios.generous_catalog "Echo"
      Scenarios.fresh = (Ok (Some md), w') ∧
    ¬ (length (source_tracks md) ≤ 4).
Proof.
  eexists _, _. split; [vm_compute; reflexivity|]. simpl. lia.
Qed.

Lemma last_char_app s t c :
  Scenarios.last_char t = Some c → Scenarios.last_char (s +:+ t) = Some c.
Proof.
  intros H. induction s as [|a s IH]; simpl; [done|]. by rewrite IH.
Qed.

Lemma answer_In table url v :
  Scenarios.answer table url = Returns v → (url, v) ∈ table.
Proof.
  induction table as [|[u x] rest IH]; simpl; [done|].
  destruct (String.eqb_spec u url) as [->|_].
  - intros [= ->]. left.
  - intros H. right. by apply IH.
Qed.

(** A table catalog honours the limits as soon as its table does. *)
Lemma table_catalog_honours_limits py_repr table :
  Scenarios.within_limits table = true →
  honours_limits py_repr (Scenarios.table_catalog table).
Proof.
  unfold Scenarios.within_limits. rewrite forallb_forall.
  intros Hall. split; intros h id response Hans;
    apply answer_In, list_elem_of_In, Hall in Hans; simpl in Hans.
  - unfold tracks_url in Hans.
    rewrite (last_char_app _ _ "4"%char) in Hans.
    + by apply Nat.leb_le.
    + by apply last_char_app.
  - unfold r_tracks_url in Hans.
    rewrite (last_char_app _ _ "2"%char) in Hans.
    + by apply Nat.leb_le.
    + by apply last_char_app.
Qed.

Lemma track_counts_within_limits_witness :
  length (source_tracks
            (Metadata (JStr "Duo") [JStr "One"] [RelatedArtist (JStr "Other") []])) ≤ 4 ∧
  Forall (λ s, length (tracks s) ≤ 2)
    (similar (Metadata (JStr "Duo") [JStr "One"] [RelatedArtist (JStr "Other") []])).
Proof.
  eapply (track_counts_within_limits Scenarios.repr_stub Scenarios.duo_catalog
            "Duo" Scenarios.fresh).
  - apply table_catalog_honours_limits. vm_compute. reflexivity.
  - vm_compute. reflexivity.
Defined.

(** ** Runs on well-formed answers *)

Lemma bind_run {A B} (m : M A) (k : A → M B) w a w1 :
  m w = (Ok a, w1) → bind m k w = k a w1.
Proof. unfold bind. by intros ->. Qed.

Lemma bind_lift {A B} (r : res A) (k : A → M B) w a :
  r = Ok a → bind (lift r) k w = k a w.
Proof. by intros ->. Qed.


Lemma titles_of_well_formed items :
  Forall (has_key "title") items → ∃ ts, titles_of items = Ok ts.
Proof.
  induction 1 as [|x rest (m & t & -> & Hm) _ [ts IH]]; simpl; [eauto|].
  rewrite Hm, IH. eauto.
Qed.

Lemma titles_run tracks_data items ts w :
  Py.iter tracks_data = Ok items → titles_of items = Ok ts →
  titles tracks_data w = (Ok ts, w).
Proof. intros H1 H2. unfold titles, bind, lift. by rewrite H1, H2. Qed.


Section WellFormed.

Variable py_repr : json → string.
Variable catalog : list string → string → outcome json.

Lemma request_returns url w v :
  catalog (requests_log w).*1 url = Returns v →
  requests_get_json catalog url w
  = (Ok v, World (requests_log w ++ [(url, Returns v)]) (rng w) (stdout w)
                 (generation_log w) (page w)).
Proof. intros H. rewrite requests_get_json_run. simpl. by rewrite H. Qed.

Lemma related_loop_well_formed items : ∀ acc w,
  Forall (λ x, ∃ r_id r_name,
              Py.getitem_key x "id" = Ok r_id ∧
              Py.getitem_key x "name" = Ok r_name ∧
              ∀ h, ∃ r_response r_items,
                catalog h (r_tracks_url py_repr r_id) = Returns r_response ∧
                listing r_response r_items ∧
                Forall (has_key "title") r_items) items →
  ∃ sim w', related_loop py_repr catalog items acc w = (Ok sim, w').
Proof.
  induction items as [|x rest IH]; intros acc w Hall; simpl.
  - by eexists _, _.
  - apply Forall_cons in Hall as [(r_id & r_name & Hid & Hname & Hans) Hrest].
    destruct (Hans (requests_log w).*1) as (r_response & r_items & Hc & Hl & Ht).
    destruct (titles_of_well_formed _ Ht) as [ts Hts].
    rewrite (bind_lift _ _ _ _ Hid).
    rewrite (bind_run _ _ _ _ _ (request_returns _ _ _ Hc)).
    rewrite (bind_lift _ _ _ _ (listing_dict_get _ _ _ Hl)).
    rewrite (bind_run _ _ _ _ _ (titles_run (JList r_items) r_items ts _ eq_refl Hts)).
    rewrite (bind_lift _ _ _ _ Hname).
    by apply IH.
Qed.

(** C9. For an artist the catalog knows and answers about in the
    expected shape, the fetch returns metadata whatever the lengths of
    the lists: with no top tracks [source_tracks] is empty, with no
    related artists [similar] is empty.  [similar] has one entry per
    kept related artist (all of them up to five, five of more), each
    after its own top-2 request and under the name of an artist of the
    related list; an entry whose request came back with an empty list is
    there, with empty [tracks]. *)
Theorem empty_results_are_not_failures (artist_name : string) (w : world)
        (real_name : json) (top related : list json) :
  well_formed_answers py_repr catalog artist_name w real_name top related →
  ∃ md w',
    fetch_artist_metadata py_repr catalog artist_name w = (Ok (Some md), w') ∧
    source_artist md = real_name ∧
    length (source_tracks md) = length top ∧
    (top = [] → source_tracks md = []) ∧
    (related = [] → similar md = []) ∧
    length (similar md) = Nat.min 5 (length related) ∧
    length (new_requests w w') = 3 + length (similar md) ∧
    (∀ i, i < length (similar md) →
       ∃ x u r_response r_items s,
         x ∈ related ∧
         new_requests w w' !! (3 + i) = Some (u, Returns r_response) ∧
         listing r_response r_items ∧
         similar md !! i = Some s ∧
         Py.getitem_key x "name" = Ok (name s) ∧
         length (tracks s) = length r_items) ∧
    (∀ i u r_response,
       new_requests w w' !! (3 + i) = Some (u, Returns r_response) →
       listing r_response [] →
       ∃ s, similar md !! i = Some s ∧ tracks s = []).
Proof.
  intros (response & first & rest & artist_id & tracks_response &
          related_response & H). simpl in H.
  destruct H as (Hsearch & Lsearch & Hid & Hname & Htracks & Ltracks & Ttop &
                 Hrelated & Lrelated & Hloop).
  destruct (titles_of_well_formed _ Ttop) as [ts Hts].
  set (w1 := World (requests_log w ++ [(search_url artist_name, Returns response)])
               (rng w) (stdout w) (generation_log w) (page w)).
  set (w2 := World (requests_log w1 ++ [(tracks_url py_repr artist_id, Returns tracks_response)])
               (rng w) (stdout w) (generation_log w) (page w)).
  set (w3 := World (requests_log w2 ++ [(related_url py_repr artist_id, Returns related_response)])
               (rng w) (stdout w) (generation_log w) (page w)).
  destruct (select_related_subset related w3) as (kept & w4 & Hsel & Hsub & Hshort).
  pose proof (select_related_Ok catalog _ _ _ _ Hsel) as (_ & Hlog4 & _).
  destruct (related_loop_well_formed kept [] w4) as (sim & w5 & Hrun).
  { apply Forall_forall. intros x Hx. by apply Hloop, Hsub. }
  pose proof (related_loop_Ok _ _ _ _ _ _ _ Hrun) as (news & es & Hsim & I5 & F).
  simpl in Hsim. subst news.
  assert (Hbody : fetch_body py_repr catalog artist_name w
                  = (Ok (Some (Metadata real_name ts sim)), w5)).
  { unfold fetch_body.
    rewrite (bind_run _ _ _ _ _ (request_returns _ _ _ Hsearch)). fold w1.
    rewrite (bind_lift _ _ _ _ (listing_dict_get _ _ _ Lsearch)). simpl.
    rewrite (bind_lift _ _ _ _ (listing_getitem _ _ Lsearch)).
    rewrite (bind_lift (Py.getitem_0 (JList (first :: rest))) _ _ first eq_refl).
    rewrite (bind_lift _ _ _ _ Hid), (bind_lift _ _ _ _ Hname).
    rewrite (bind_run _ _ w1 tracks_response w2).
    2:{ apply request_returns. simpl. by rewrite fmap_app. }
    rewrite (bind_lift _ _ _ _ (listing_dict_get _ _ _ Ltracks)).
    rewrite (bind_run _ _ _ _ _ (titles_run (JList top) top ts _ eq_refl Hts)).
    rewrite (bind_run _ _ w2 related_response w3).
    2:{ apply request_returns. simpl. by rewrite !fmap_app, <- app_assoc. }
    rewrite (bind_lift _ _ _ _ (listing_dict_get _ _ _ Lrelated)).
    rewrite (bind_run _ _ _ _ _ Hsel).
    rewrite (bind_lift (Py.iter (JList kept)) _ _ kept eq_refl).
    by rewrite (bind_run _ _ _ _ _ Hrun). }
  assert (Hnew : new_requests w w5
                 = [(search_url artist_name, Returns response);
                    (tracks_url py_repr artist_id, Returns tracks_response);
                    (related_url py_repr artist_id, Returns related_response)]
                   ++ es).
  { destruct I5 as [I5 _]. unfold new_requests.
    rewrite I5, Hlog4. simpl. rewrite <- !app_assoc.
    by rewrite drop_app_length. }
  pose proof (Forall3_length_lr _ _ _ _ F) as Hlen_sim.
  pose proof (Forall3_length_lm _ _ _ _ F) as Hlen_es.
  assert (Hlen_kept : length kept = Nat.min 5 (length related)).
  { destruct (kept_is_sampled _ _ _ _ Hsel) as (kept' & [= <-] & Hlong & Hkeep).
    destruct (decide (5 < length related)) as [Hlt|Hle].
    - destruct (Hlong Hlt) as [-> _]. lia.
    - rewrite Hkeep by lia. lia. }
  assert (Hentry : ∀ i x e s,
            kept !! i = Some x → es !! i = Some e → sim !! i = Some s →
            loop_step py_repr catalog x e s →
            ∃ u r_response r_items,
              x ∈ related ∧ e = (u, Returns r_response) ∧
              listing r_response r_items ∧
              Py.getitem_key x "name" = Ok (name s) ∧
              titles_of r_items = Ok (tracks s)).
  { intros i x e s Hx He Hs Hstep.
    assert (Hin : x ∈ related) by (eapply Hsub, list_elem_of_lookup_2; eauto).
    destruct Hstep as (r_id & r_resp & r_data & r_items & h &
                       Hrid & -> & Hc & Hd & Hit & Hti & Hnm).
    destruct (Hloop x Hin) as (r_id' & r_name & Hrid' & _ & Hans).
    rewrite Hrid in Hrid'. inversion Hrid'; subst r_id'.
    destruct (Hans h) as (r_resp' & items' & Hc' & Hl' & _).
    rewrite Hc in Hc'. inversion Hc'; subst r_resp'.
    rewrite (listing_dict_get _ _ _ Hl') in Hd. inversion Hd; subst.
    simpl in Hit. inversion Hit; subst.
    by exists (r_tracks_url py_repr r_id), r_resp, r_items. }
  exists (Metadata real_name ts sim), w5.
  split_and!.
  - by rewrite fetch_artist_metadata_unfold, Hbody.
  - done.
  - simpl. by apply titles_of_length.
  - intros ->. simpl in *. by inversion Hts.
  - intros ->. simpl. rewrite Hshort in F by (simpl; lia).
    apply Forall3_length_lr in F. by apply nil_length_inv.
  - cbn [similar]. lia.
  - rewrite Hnew, length_app. cbn [similar length]. lia.
  - cbn [similar]. intros i Hi.
    destruct (lookup_lt_is_Some_2 sim i Hi) as [s Hs].
    destruct (Forall3_lookup_r _ _ _ _ _ _ F Hs) as (x & e & Hx & He & Hstep).
    destruct (Hentry i x e s Hx He Hs Hstep)
      as (u & r_response & r_items & Hin & -> & Hl & Hnm & Hti).
    exists x, u, r_response, r_items, s.
    split_and!; [done| |done|done|done|by apply titles_of_length].
    rewrite Hnew. done.
  - intros i u r_response Hi Hempty. rewrite Hnew in Hi. simpl in Hi.
    destruct (Forall3_lookup_m _ _ _ _ _ _ F Hi) as (x & s & Hx & Hs & Hstep).
    destruct (Hentry i x _ s Hx Hi Hs Hstep)
      as (u' & r_response' & r_items & _ & [= _ <-] & Hl & _ & Hti).
    rewrite (listing_unique _ _ _ Hl Hempty) in Hti.
    exists s. split; [done|]. simpl in Hti. by inversion Hti.
Qed.

End WellFormed.

Lemma empty_results_are_not_failures_witness :
  ∃ md w' s,
    fetch_artist_metadata Scenarios.repr_stub Scenarios.duo_catalog "Duo"
      Scenarios.fresh = (Ok (Some md), w') ∧
    length (similar md) = 1 ∧
    similar md !! 0 = Some s ∧ tracks s = [].
Proof.
  destruct (empty_results_are_not_failures Scenarios.repr_stub
              Scenarios.duo_catalog "Duo" Scenarios.fresh (JStr "Duo")
              [Scenarios.track "One"] [Scenarios.artist 9 "Other"])
    as (md & w' & Hrun & _ & _ & _ & _ & Hlen & _ & _ & Hempty).
  - exists (Scenarios.data_of [Scenarios.artist 8 "Duo"]),
           (Scenarios.artist 8 "Duo"), [], (JInt 8),
           (Scenarios.data_of [Scenarios.track "One"]),
           (Scenarios.data_of [Scenarios.artist 9 "Other"]).
    simpl. split_and!; try (vm_compute; reflexivity).
    + eexists. split; [reflexivity|]. vm_compute. reflexivity.
    + eexists. split; [reflexivity|]. vm_compute. reflexivity.
    + repeat constructor. eexists _, _. split; [reflexivity|].
      vm_compute. reflexivity.
    + eexists. split; [reflexivity|]. vm_compute. reflexivity.
    + intros x Hx. apply list_elem_of_singleton in Hx as ->.
      exists (JInt 9), (JStr "Other").
      split_and!; try (vm_compute; reflexivity).
      intros h. exists (Scenarios.data_of []), [].
      split_and!; [vm_compute; reflexivity| |constructor].
      eexists. split; [reflexivity|]. vm_compute. reflexivity.
  - destruct (Hempty 0 "https://api.deezer.com/artist/9/top?limit=2"
                (Scenarios.data_of [])) as (s & Hs & Htracks).
    + vm_compute in Hrun. injection Hrun as _ <-. vm_compute. reflexivity.
    + eexists. split; [reflexivity|]. vm_compute. reflexivity.
    + exists md, w', s. split_and!; [exact Hrun|exact Hlen|exact Hs|exact Htracks].
Defined.

Example duo_fetch :
  (fetch_artist_metadata Scenarios.repr_stub Scenarios.duo_catalog "Duo"
     Scenarios.fresh).1
  = Ok (Some (Metadata (JStr "Duo") [JStr "One"] [RelatedArtist (JStr "Other") []])).
Proof. vm_compute. reflexivity. Qed.

(** ** The fetch does not touch the generation log and the page *)

Lemma page_blind_ret {A} (a : A) : page_blind (ret a).
Proof. done. Qed.

Lemma page_blind_lift {A} (r : res A) : page_blind (lift r).
Proof. done. Qed.

Lemma page_blind_raise {A} (e : exn) : page_blind (raise (A := A) e).
Proof. done. Qed.

Lemma page_blind_print s : page_blind (print s).
Proof. done. Qed.

Lemma page_blind_randbelow n : page_blind (randbelow n).
Proof. intros w gl pg. unfold randbelow. simpl. by destruct (rng w). Qed.

Lemma page_blind_bind {A B} (m : M A) (k : A → M B) :
  page_blind m → (∀ a, page_blind (k a)) → page_blind (bind m k).
Proof.
  intros Hm Hk w gl pg. unfold bind. rewrite Hm.
  destruct (m w) as [[a|e|] w1]; simpl; [apply Hk|done|done].
Qed.

Lemma page_blind_try_except {A} (body : M A) (handler : exn → M A) :
  page_blind body → (∀ e, page_blind (handler e)) →
  page_blind (try_except body handler).
Proof.
  intros Hm Hk w gl pg. unfold try_except. rewrite Hm.
  destruct (body w) as [[a|e|] w1]; simpl; [done|apply Hk|done].
Qed.

Lemma page_blind_sample_loop k : ∀ pool m, page_blind (sample_loop pool m k).
Proof.
  induction k as [|k IH]; intros pool m; simpl.
  - apply page_blind_ret.
  - apply page_blind_bind; [apply page_blind_randbelow|]. intros j.
    apply page_blind_bind; [apply IH|]. intros rest. apply page_blind_ret.
Qed.

Lemma page_blind_random_sample population k :
  page_blind (random_sample population k).
Proof.
  destruct population; simpl; try apply page_blind_raise;
    case_match; auto using page_blind_raise, page_blind_sample_loop.
Qed.

Lemma page_blind_select_related v : page_blind (select_related v).
Proof.
  unfold select_related. apply page_blind_bind; [apply page_blind_lift|].
  intros n. case_match; [|apply page_blind_ret].
  apply page_blind_bind; [apply page_blind_random_sample|].
  intros ?. apply page_blind_ret.
Qed.

Lemma page_blind_titles d : page_blind (titles d).
Proof.
  unfold titles. apply page_blind_bind; [apply page_blind_lift|].
  intros ?. apply page_blind_lift.
Qed.

Section PageBlind.

Variable py_repr : json → string.
Variable catalog : list string → string → outcome json.

Lemma page_blind_request url : page_blind (requests_get_json catalog url).
Proof. done. Qed.

Lemma page_blind_related_loop items : ∀ acc,
  page_blind (related_loop py_repr catalog items acc).
Proof.
  induction items as [|x rest IH]; intros acc; simpl.
  - apply page_blind_ret.
  - repeat (apply page_blind_bind;
            [first [apply page_blind_lift | apply page_blind_request
                   | apply page_blind_titles]|]; intros ?).
    apply IH.
Qed.

Lemma page_blind_fetch_body artist_name :
  page_blind (fetch_body py_repr catalog artist_name).
Proof.
  unfold fetch_body.
  apply page_blind_bind; [apply page_blind_request|]. intros response.
  apply page_blind_bind; [apply page_blind_lift|]. intros found.
  case_match; [apply page_blind_ret|].
  repeat (apply page_blind_bind;
          [first [apply page_blind_lift | apply page_blind_request
                 | apply page_blind_titles | apply page_blind_select_related
                 | apply page_blind_related_loop]|]; intros ?).
  apply page_blind_ret.
Qed.

Lemma page_blind_fetch artist_name :
  page_blind (fetch_artist_metadata py_repr catalog artist_name).
Proof.
  unfold fetch_artist_metadata.
  apply page_blind_try_except; [apply page_blind_fetch_body|].
  intros e. apply page_blind_bind; [apply page_blind_print|].
  intros ?. apply page_blind_ret.
Qed.

End PageBlind.

(** ** The agent *)

Lemma prefix_app (p s : string) : String.prefix p (p +:+ s) = true.
Proof.
  induction p as [|c p IH]; simpl; [by destruct s|].
  by destruct (Ascii.ascii_dec c c).
Qed.

Section AgentRuns.

Variable generate : list gen_call → gen_call → outcome string.

(** One call, logged with its outcome; the text that comes back or the
    description of the failure is returned. *)
Lemma execute_run (self : Agent) (input_context : string) (w : world) :
  execute generate self input_context w
  = (Ok (reply (generate (generation_log w).*1 (call_of self input_context))),
     World (requests_log w) (rng w) (stdout w)
           (generation_log w ++
              [(call_of self input_context,
                generate (generation_log w).*1 (call_of self input_context))])
           (page w)).
Proof.
  unfold execute, try_except, chat_completion, call_of. simpl.
  by destruct (generate _ _).
Qed.

End AgentRuns.

(** C3. Whatever the input and whatever the generation service does,
    [Agent.execute] returns a string and raises nothing.  When the call
    throws, that string is the fixed failure prefix followed by the text
    of the exception, and it comes back exactly as a completion does: a
    service that answers with this very text makes [execute] return the
    same value, so the caller gets no separate error signal. *)
Theorem execute_never_raises (generate : list gen_call → gen_call → outcome string)
        (self : Agent) (input_context : string) (w : world) :
  ∃ text w',
    execute generate self input_context w = (Ok text, w') ∧
    (∀ e, generate (generation_log w).*1 (call_of self input_context) = Throws e →
          text = error_prefix +:+ exn_text e ∧
          String.prefix error_prefix text = true ∧
          ∃ generate',
            generate' (generation_log w).*1 (call_of self input_context)
              = Returns text ∧
            (execute generate' self input_context w).1 = Ok text).
Proof.
  eexists _, _. split; [apply execute_run|].
  intros e He. rewrite He. simpl. split_and!; [done|apply prefix_app|].
  exists (λ _ _, Returns (error_prefix +:+ exn_text e)).
  split; [done|]. by rewrite execute_run.
Qed.

Lemma execute_never_raises_witness :
  ∃ w',
    execute Scenarios.gen_fail
      (agent1 (Client MODEL_REPO_ID "hf_token")) "context" Scenarios.fresh
    = (Ok "Ошибка выполнения агента: 401 Unauthorized", w').
Proof.
  destruct (execute_never_raises Scenarios.gen_fail
              (agent1 (Client MODEL_REPO_ID "hf_token")) "context" Scenarios.fresh)
    as (text & w' & Hrun & Hfail).
  destruct (Hfail (Exn "HfHubHTTPError" "401 Unauthorized") eq_refl) as (-> & _).
  exists w'. exact Hrun.
Defined.

(** C10. When the generation call raises [e], [Agent.execute] returns
    exactly ["Ошибка выполнения агента: "] followed by [str(e)].  The
    returned text therefore starts with that prefix, and it differs from
    every completion that does not start with it. *)
Theorem execute_error_text (generate : list gen_call → gen_call → outcome string)
        (self : Agent) (input_context : string) (w : world) (e : exn) :
  generate (generation_log w).*1 (call_of self input_context) = Throws e →
  ∃ w',
    execute generate self input_context w
      = (Ok ("Ошибка выполнения агента: " +:+ exn_text e), w') ∧
    String.prefix "Ошибка выполнения агента: "
      ("Ошибка выполнения агента: " +:+ exn_text e) = true ∧
    (∀ completion,
       String.prefix "Ошибка выполнения агента: " completion = false →
       "Ошибка выполнения агента: " +:+ exn_text e ≠ completion).
Proof.
  intros He. eexists. split_and!.
  - rewrite execute_run, He. reflexivity.
  - apply prefix_app.
  - intros completion Hno <-. by rewrite prefix_app in Hno.
Qed.

Lemma execute_error_text_witness :
  ∃ w',
    execute Scenarios.gen_fail
      (agent2 (Client MODEL_REPO_ID "hf_token")) "context" Scenarios.fresh
    = (Ok ("Ошибка выполнения агента: " +:+ "401 Unauthorized"), w').
Proof.
  destruct (execute_error_text Scenarios.gen_fail
              (agent2 (Client MODEL_REPO_ID "hf_token")) "context" Scenarios.fresh
              (Exn "HfHubHTTPError" "401 Unauthorized") eq_refl)
    as (w' & Hrun & _).
  exists w'. exact Hrun.
Defined.

(** ** The context *)

Lemma join_from_strings sep items : ∀ i,
  Forall (λ t, Py.is_str t = true) items → ∃ s, Py.join_from i sep items = Ok s.
Proof.
  induction items as [|x rest IH]; intros i Hall; simpl; [eauto|].
  apply Forall_cons in Hall as [Hx Hrest].
  destruct x; try done. destruct rest as [|y rest']; [eauto|].
  destruct (IH (S i) Hrest) as [t ->]. eauto.
Qed.

Section Context.

Variable py_repr : json → string.

(** The loop of the context builder leaves the world alone, and what
    it returns does not depend on the world. *)
Lemma context_loop_pure similar_artists : ∀ context_payload,
  ∃ r, ∀ w, context_loop py_repr similar_artists context_payload w = (r, w).
Proof.
  induction similar_artists as [|s rest IH]; intros context_payload; simpl.
  - by eexists.
  - unfold bind, lift.
    destruct (Py.join ", " (tracks s)) as [joined|e|]; [apply IH| |];
      by eexists.
Qed.

Lemma build_context_pure (raw_data : metadata) :
  ∃ r, ∀ w, build_context py_repr raw_data w = (r, w).
Proof.
  unfold build_context, bind, lift.
  destruct (Py.join ", " (source_tracks raw_data)) as [joined|e|];
    [apply context_loop_pure| |]; by eexists.
Qed.

Lemma context_loop_strings similar_artists : ∀ context_payload,
  Forall (λ s, Forall (λ t, Py.is_str t = true) (tracks s)) similar_artists →
  ∃ ctx, ∀ w, context_loop py_repr similar_artists context_payload w = (Ok ctx, w).
Proof.
  induction similar_artists as [|s rest IH]; intros context_payload Hall; simpl.
  - by eexists.
  - apply Forall_cons in Hall as [Hs Hrest].
    destruct (join_from_strings ", " (tracks s) 0 Hs) as [joined Hj].
    unfold bind, lift, Py.join. rewrite Hj. by apply IH.
Qed.

(** With string titles throughout, the context gets built. *)
Lemma build_context_strings (raw_data : metadata) :
  titles_are_strings raw_data →
  ∃ ctx, ∀ w, build_context py_repr raw_data w = (Ok ctx, w).
Proof.
  intros [Hsrc Hsim]. unfold build_context, bind, lift, Py.join.
  destruct (join_from_strings ", " (source_tracks raw_data) 0 Hsrc) as [joined ->].
  by apply context_loop_strings.
Qed.

End Context.

(** C7. Building the context is a function of the metadata alone: two
    runs on equal metadata, in whatever worlds (other requests logged,
    other random draws ahead, other pages), give the same result, byte
    for byte, and neither run changes its world. *)
Theorem build_context_deterministic (py_repr : json → string)
        (md1 md2 : metadata) (w1 w2 : world) :
  md1 = md2 →
  (build_context py_repr md1 w1).1 = (build_context py_repr md2 w2).1 ∧
  (build_context py_repr md1 w1).2 = w1 ∧
  (build_context py_repr md2 w2).2 = w2.
Proof.
  intros <-. destruct (build_context_pure py_repr md1) as [r Hr].
  by rewrite !Hr.
Qed.

Lemma build_context_deterministic_witness :
  (build_context Scenarios.repr_stub
     (Metadata (JStr "Echo") [JStr "Ping"; JStr "Pong"]
        [RelatedArtist (JStr "R1") [JStr "T1"]])
     Scenarios.fresh).1
  = (build_context Scenarios.repr_stub
       (Metadata (JStr "Echo") [JStr "Ping"; JStr "Pong"]
          [RelatedArtist (JStr "R1") [JStr "T1"]])
       (World [] [4; 2] ["API Error: x"] [] [StDivider])).1.
Proof.
  apply (build_context_deterministic Scenarios.repr_stub
           (Metadata (JStr "Echo") [JStr "Ping"; JStr "Pong"]
              [RelatedArtist (JStr "R1") [JStr "T1"]])
           (Metadata (JStr "Echo") [JStr "Ping"; JStr "Pong"]
              [RelatedArtist (JStr "R1") [JStr "T1"]])
           Scenarios.fresh (World [] [4; 2] ["API Error: x"] [] [StDivider])).
  reflexivity.
Defined.

Example build_context_echo :
  (build_context Scenarios.repr_stub
     (Metadata (JStr "Echo") [JStr "Ping"; JStr "Pong"]
        [RelatedArtist (JStr "R1") [JStr "T1"]])
     Scenarios.fresh).1
  = Ok ("ЦЕЛЕВАЯ СУЩНОСТЬ: Echo (Топ-треки: Ping, Pong)" +:+ Py.nl +:+
        "СВЯЗАННЫЕ СУЩНОСТИ:" +:+ Py.nl +:+
        "- R1 (Треки: T1)" +:+ Py.nl).
Proof. vm_compute. reflexivity. Qed.

(** ** The script *)

Lemma bind_st {B} (ev : ui_event) (k : unit → M B) w :
  bind (st ev) k w
  = k tt (World (requests_log w) (rng w) (stdout w) (generation_log w)
                (page w ++ [ev])).
Proof. done. Qed.

Lemma eqb_empty_false (s : string) : s ≠ "" → String.eqb s "" = false.
Proof. intros H. by apply String.eqb_neq. Qed.

Section Script.

Variable py_repr : json → string.
Variable catalog : list string → string → outcome json.
Variable generate : list gen_call → gen_call → outcome string.

#[local] Abbreviation fetch := (fetch_artist_metadata py_repr catalog).
#[local] Abbreviation run_main := (main py_repr catalog generate).

(** Stage 0 when the fetch returns metadata. *)
Lemma collect_found user_query w gl pg md w1 :
  fetch user_query w = (Ok (Some md), w1) →
  collect py_repr catalog user_query (with_page w gl pg)
  = (Ok md,
     with_page w1 gl
       (pg ++ [StStatus "Система: Получение метаданных из внешнего API..."]
           ++ found_page (py_str py_repr (source_artist md)))).
Proof.
  intros Hrun. unfold collect. rewrite bind_st. simpl.
  pose proof (page_blind_fetch py_repr catalog user_query w gl
                (pg ++ [StStatus "Система: Получение метаданных из внешнего API..."]))
    as Hblind.
  rewrite Hrun in Hblind. unfold with_page in Hblind at 1.
  unfold bind at 1. rewrite Hblind. simpl.
  rewrite !bind_st. unfold ret, found_page, with_page. simpl.
  by rewrite <- !app_assoc.
Qed.

(** Stage 0 when the fetch returns [None]. *)
Lemma collect_not_found user_query w gl pg w1 :
  fetch user_query w = (Ok None, w1) →
  collect py_repr catalog user_query (with_page w gl pg)
  = (Stopped,
     with_page w1 gl
       (pg ++ [StStatus "Система: Получение метаданных из внешнего API..."]
           ++ not_found_page)).
Proof.
  intros Hrun. unfold collect. rewrite bind_st. simpl.
  pose proof (page_blind_fetch py_repr catalog user_query w gl
                (pg ++ [StStatus "Система: Получение метаданных из внешнего API..."]))
    as Hblind.
  rewrite Hrun in Hblind. unfold with_page in Hblind at 1.
  unfold bind at 1. rewrite Hblind. simpl.
  rewrite !bind_st. unfold st_stop, not_found_page, with_page. simpl.
  by rewrite <- !app_assoc.
Qed.

(** [main] up to stage 0. *)
Lemma main_unfold hf_token user_query w :
  hf_token ≠ "" → user_query ≠ "" →
  run_main hf_token user_query true w
  = bind (collect py_repr catalog user_query)
      (λ raw_data,
         bind (build_context py_repr raw_data)
              (pipeline generate (Client MODEL_REPO_ID hf_token)))
      (with_page w (generation_log w)
         (page w ++ [StPageConfig "Интеллектуальная МАС" "🎵" "wide";
                     StTitle "🎵 Интеллектуальная Система Генерации Плейлистов";
                     StMarkdown "### Лабораторная работа: Мультиагентные системы";
                     StMarkdown "**Выполнили:** Грудницкий и Соловьёв";
                     StMarkdown "---";
                     StHeader "Конфигурация Системы";
                     StWrite "";
                     StWrite ""])).
Proof.
  intros Ht Hq. unfold main. rewrite !bind_st. simpl.
  rewrite (eqb_empty_false _ Ht), !bind_st, (eqb_empty_false _ Hq). simpl.
  unfold with_page. by rewrite <- !app_assoc.
Qed.

(** The four stages, one after the other. *)
Lemma pipeline_run client context_payload w :
  let gl := generation_log w in
  let c1 := call_of (agent1 client) context_payload in
  let g1 := generate gl.*1 c1 in
  let c2 := call_of (agent2 client) context_payload in
  let g2 := generate (gl ++ [(c1, g1)]).*1 c2 in
  let c3 := call_of (agent3 client) (reply g2) in
  let g3 := generate (gl ++ [(c1, g1); (c2, g2)]).*1 c3 in
  let c4 := call_of (agent4 client) (reply g3) in
  let g4 := generate (gl ++ [(c1, g1); (c2, g2); (c3, g3)]).*1 c4 in
  pipeline generate client context_payload w
  = (Ok tt,
     World (requests_log w) (rng w) (stdout w)
           (gl ++ [(c1, g1); (c2, g2); (c3, g3); (c4, g4)])
           (page w ++ pipeline_page (reply g1) (reply g2) (reply g3) (reply g4))).
Proof.
  intros gl c1 g1 c2 g2 c3 g3 c4 g4. unfold pipeline.
  do 4 (rewrite bind_st; cbn [requests_log rng stdout generation_log page]).
  unfold bind at 1. rewrite execute_run.
  cbn [requests_log rng stdout generation_log page]. fold gl c1 g1.
  do 4 (rewrite bind_st; cbn [requests_log rng stdout generation_log page]).
  unfold bind at 1. rewrite execute_run.
  cbn [requests_log rng stdout generation_log page]. fold c2 g2.
  do 4 (rewrite bind_st; cbn [requests_log rng stdout generation_log page]).
  unfold bind at 1. rewrite execute_run.
  cbn [requests_log rng stdout generation_log page]. rewrite <- app_assoc.
  cbn [app]. fold c3 g3.
  do 4 (rewrite bind_st; cbn [requests_log rng stdout generation_log page]).
  unfold bind at 1. rewrite execute_run.
  cbn [requests_log rng stdout generation_log page]. rewrite <- !app_assoc.
  cbn [app]. fold c4 g4.
  rewrite bind_st. cbn [requests_log rng stdout generation_log page].
  unfold st. cbn [requests_log rng stdout generation_log page].
  unfold pipeline_page. rewrite <- !app_assoc. reflexivity.
Qed.

(** C5. When the fetch returns [None], [main] halts at stage 0: the
    script is stopped, no generation call was made, and the page shows
    the failed status and the error "Исполнитель не найден." after the
    preamble, with no stage output. *)
Theorem no_agent_without_metadata (hf_token user_query : string)
        (w w1 : world) :
  hf_token ≠ "" → user_query ≠ "" →
  fetch user_query w = (Ok None, w1) →
  ∃ w',
    run_main hf_token user_query true w = (Stopped, w') ∧
    generation_log w' = generation_log w ∧
    page w' = page w ++ preamble_page ++ not_found_page ∧
    requests_log w' = requests_log w1.
Proof.
  intros Ht Hq Hrun. rewrite (main_unfold _ _ _ Ht Hq).
  unfold bind at 1. rewrite (collect_not_found _ _ _ _ _ Hrun).
  eexists. split_and!; [done|done| |done].
  simpl. by rewrite <- !app_assoc.
Qed.

(** C4, as the code has it.  When the fetch returns metadata whose
    track titles are all strings, the context gets built and [main]
    runs the four stages to the end, in order: agents 1 and 2 are both
    called on the built context, agent 3 on what agent 2 returned,
    agent 4 on what agent 3 returned; these are the only generation
    calls, and the page shows the four outputs, one per stage. *)
Theorem pipeline_order (hf_token user_query : string) (w w1 : world)
        (md : metadata) :
  hf_token ≠ "" → user_query ≠ "" →
  fetch user_query w = (Ok (Some md), w1) →
  titles_are_strings md →
  ∃ context_payload g1 g2 g3 g4 w',
    run_main hf_token user_query true w = (Ok tt, w') ∧
    (∀ w0, build_context py_repr md w0 = (Ok context_payload, w0)) ∧
    generation_log w'
    = generation_log w ++
      [(call_of (agent1 (Client MODEL_REPO_ID hf_token)) context_payload, g1);
       (call_of (agent2 (Client MODEL_REPO_ID hf_token)) context_payload, g2);
       (call_of (agent3 (Client MODEL_REPO_ID hf_token)) (reply g2), g3);
       (call_of (agent4 (Client MODEL_REPO_ID hf_token)) (reply g3), g4)] ∧
    page w'
    = page w ++ preamble_page ++
      found_page (py_str py_repr (source_artist md)) ++
      pipeline_page (reply g1) (reply g2) (reply g3) (reply g4).
Proof.
  intros Ht Hq Hrun Hstr. rewrite (main_unfold _ _ _ Ht Hq).
  unfold bind at 1. rewrite (collect_found _ _ _ _ _ _ Hrun).
  destruct (build_context_strings py_repr md Hstr) as [ctx Hctx].
  unfold bind at 1. rewrite Hctx. rewrite pipeline_run.
  eexists ctx, _, _, _, _, _. split_and!; [done|done|done|].
  simpl. by rewrite <- !app_assoc.
Qed.

End Script.

Lemma no_agent_without_metadata_witness :
  ∃ w',
    main Scenarios.repr_stub Scenarios.nomatch_catalog Scenarios.gen_echo
      "hf_token" "Zzyzx123" true Scenarios.fresh = (Stopped, w') ∧
    generation_log w' = [].
Proof.
  destruct (no_agent_without_metadata Scenarios.repr_stub
              Scenarios.nomatch_catalog Scenarios.gen_echo
              "hf_token" "Zzyzx123" Scenarios.fresh
              (fetch_artist_metadata Scenarios.repr_stub Scenarios.nomatch_catalog
                 "Zzyzx123" Scenarios.fresh).2)
    as (w' & Hrun & Hgl & _).
  - discriminate.
  - discriminate.
  - vm_compute. reflexivity.
  - exists w'. split; [exact Hrun | exact Hgl].
Defined.

(** The claim C4 as written fails when the catalog sends a track whose
    title is not a string: the fetch returns metadata, building the
    context raises, and no stage runs. *)
Lemma pipeline_order_counterexample :
  (∃ md w1,
     fetch_artist_metadata Scenarios.repr_stub Scenarios.untitled_catalog "Echo"
       Scenarios.fresh = (Ok (Some md), w1)) ∧
  ∃ w',
    main Scenarios.repr_stub Scenarios.untitled_catalog Scenarios.gen_echo
      "hf_token" "Echo" true Scenarios.fresh
    = (Raised (Py.TypeError
                 "sequence item 0: expected str instance, NoneType found"), w') ∧
    generation_log w' = [].
Proof.
  split.
  - eexists _, _. vm_compute. reflexivity.
  - eexists. split; [vm_compute; reflexivity|reflexivity].
Qed.

Lemma pipeline_order_witness :
  ∃ w',
    main Scenarios.repr_stub Scenarios.echo_catalog Scenarios.gen_echo
      "hf_token" "Echo" true (World [] [3; 3; 3; 9; 0; 1] [] [] [])
    = (Ok tt, w') ∧
    length (generation_log w') = 4.
Proof.
  destruct (pipeline_order Scenarios.repr_stub Scenarios.echo_catalog
              Scenarios.gen_echo "hf_token" "Echo"
              (World [] [3; 3; 3; 9; 0; 1] [] [] [])
              (fetch_artist_metadata Scenarios.repr_stub Scenarios.echo_catalog
                 "Echo" (World [] [3; 3; 3; 9; 0; 1] [] [] [])).2
              (Metadata (JStr "Echo") [JStr "Ping"; JStr "Pong"]
                 [RelatedArtist (JStr "R4") [JStr "T4"];
                  RelatedArtist (JStr "R6") [JStr "T6"];
                  RelatedArtist (JStr "R5") [JStr "T5"];
                  RelatedArtist (JStr "R1") [JStr "T1"];
                  RelatedArtist (JStr "R3") [JStr "T3"]]))
    as (ctx & g1 & g2 & g3 & g4 & w' & Hrun & _ & Hgl & _).
  - discriminate.
  - discriminate.
  - vm_compute. reflexivity.
  - split; simpl; repeat constructor.
  - exists w'. split; [exact Hrun|]. rewrite Hgl. reflexivity.
Defined.

(** The end-to-end scenario: "Echo" with six related artists and a
    generation service that echoes its input after "GEN:". *)
Example echo_end_to_end :
  let run := main Scenarios.repr_stub Scenarios.echo_catalog Scenarios.gen_echo
               "hf_token" "Echo" true (World [] [3; 3; 3; 9; 0; 1] [] [] []) in
  run.1 = Ok tt ∧
  length (generation_log run.2) = 4 ∧
  length (requests_log run.2) = 8 ∧
  ∃ output_4,
    last (page run.2) = Some (StMarkdown output_4) ∧
    String.prefix "GEN:" output_4 = true.
Proof.
  vm_compute. split_and!; [reflexivity|reflexivity|reflexivity|].
  eexists. split; reflexivity.
Qed.

(** * Further properties of the code *)

(** ** The script when it has nothing to do *)

Section Idle.

Variable py_repr : json → string.
Variable catalog : list string → string → outcome json.
Variable generate : list gen_call → gen_call → outcome string.

(** X1. Without a token [main] shows the warning and returns; with a
    token but without a pressed button or without a query it returns
    after the inputs.  In all three cases it contacts neither service,
    draws no random number and prints nothing. *)
Theorem main_idle (hf_token user_query : string) (run_btn : bool) (w : world) :
  hf_token = "" ∨ run_btn = false ∨ user_query = "" →
  ∃ w',
    main py_repr catalog generate hf_token user_query run_btn w = (Ok tt, w') ∧
    requests_log w' = requests_log w ∧
    generation_log w' = generation_log w ∧
    rng w' = rng w ∧
    stdout w' = stdout w ∧
    page w' = page w ++ header_page ++
              (if String.eqb hf_token ""
               then [StWarning "Ожидание токена авторизации..."]
               else [StWrite ""; StWrite ""]).
Proof.
  intros Hidle. unfold main.
  do 6 (rewrite bind_st; cbn [requests_log rng stdout generation_log page]).
  destruct (String.eqb_spec hf_token "") as [->|Htoken].
  - eexists. unfold st. split_and!; try reflexivity.
    cbn [page]. unfold header_page. by rewrite <- !app_assoc.
  - do 2 (rewrite bind_st; cbn [requests_log rng stdout generation_log page]).
    assert (run_btn && negb (String.eqb user_query "") = false) as ->.
    { destruct Hidle as [?|[->| ->]]; [done|done|]. by rewrite andb_false_r. }
    eexists. unfold ret. split_and!; try reflexivity.
    cbn [page]. unfold header_page. by rewrite <- !app_assoc.
Qed.

End Idle.

Lemma main_idle_witness :
  ∃ w',
    main Scenarios.repr_stub Scenarios.echo_catalog Scenarios.gen_echo
      "hf_token" "Echo" false Scenarios.fresh = (Ok tt, w') ∧
    requests_log w' = [] ∧ generation_log w' = [].
Proof.
  destruct (main_idle Scenarios.repr_stub Scenarios.echo_catalog
              Scenarios.gen_echo "hf_token" "Echo" false Scenarios.fresh)
    as (w' & Hrun & Hreq & Hgen & _).
  - right; left; reflexivity.
  - exists w'. split_and!; [exact Hrun | exact Hreq | exact Hgen].
Defined.

(** ** What the fetch prints *)

Lemma keeps_stdout_ret {A} (a : A) : keeps_stdout (ret a).
Proof. done. Qed.

Lemma keeps_stdout_lift {A} (r : res A) : keeps_stdout (lift r).
Proof. done. Qed.

Lemma keeps_stdout_raise {A} (e : exn) : keeps_stdout (raise (A := A) e).
Proof. done. Qed.

Lemma keeps_stdout_randbelow n : keeps_stdout (randbelow n).
Proof. intros w. unfold randbelow. by destruct (rng w). Qed.

Lemma keeps_stdout_bind {A B} (m : M A) (k : A → M B) :
  keeps_stdout m → (∀ a, keeps_stdout (k a)) → keeps_stdout (bind m k).
Proof.
  intros Hm Hk w. unfold bind. specialize (Hm w).
  destruct (m w) as [[a|e|] w1]; simpl in *; [|done|done].
  by rewrite Hk.
Qed.

Lemma keeps_stdout_sample_loop k : ∀ pool m, keeps_stdout (sample_loop pool m k).
Proof.
  induction k as [|k IH]; intros pool m; simpl.
  - apply keeps_stdout_ret.
  - apply keeps_stdout_bind; [apply keeps_stdout_randbelow|]. intros j.
    apply keeps_stdout_bind; [apply IH|]. intros rest. apply keeps_stdout_ret.
Qed.

Lemma keeps_stdout_random_sample population k :
  keeps_stdout (random_sample population k).
Proof.
  destruct population; simpl; try apply keeps_stdout_raise;
    case_match; auto using keeps_stdout_raise, keeps_stdout_sample_loop.
Qed.

Lemma keeps_stdout_select_related v : keeps_stdout (select_related v).
Proof.
  unfold select_related. apply keeps_stdout_bind; [apply keeps_stdout_lift|].
  intros n. case_match; [|apply keeps_stdout_ret].
  apply keeps_stdout_bind; [apply keeps_stdout_random_sample|].
  intros ?. apply keeps_stdout_ret.
Qed.

Lemma keeps_stdout_titles d : keeps_stdout (titles d).
Proof.
  unfold titles. apply keeps_stdout_bind; [apply keeps_stdout_lift|].
  intros ?. apply keeps_stdout_lift.
Qed.

Section Printing.

Variable py_repr : json → string.
Variable catalog : list string → string → outcome json.

Lemma keeps_stdout_request url : keeps_stdout (requests_get_json catalog url).
Proof. done. Qed.

Lemma keeps_stdout_related_loop items : ∀ acc,
  keeps_stdout (related_loop py_repr catalog items acc).
Proof.
  induction items as [|x rest IH]; intros acc; simpl.
  - apply keeps_stdout_ret.
  - repeat (apply keeps_stdout_bind;
            [first [apply keeps_stdout_lift | apply keeps_stdout_request
                   | apply keeps_stdout_titles]|]; intros ?).
    apply IH.
Qed.

Lemma keeps_stdout_fetch_body artist_name :
  keeps_stdout (fetch_body py_repr catalog artist_name).
Proof.
  unfold fetch_body.
  apply keeps_stdout_bind; [apply keeps_stdout_request|]. intros response.
  apply keeps_stdout_bind; [apply keeps_stdout_lift|]. intros found.
  case_match; [apply keeps_stdout_ret|].
  repeat (apply keeps_stdout_bind;
          [first [apply keeps_stdout_lift | apply keeps_stdout_request
                 | apply keeps_stdout_titles | apply keeps_stdout_select_related
                 | apply keeps_stdout_related_loop]|]; intros ?).
  apply keeps_stdout_ret.
Qed.

(** X2. The fetch prints exactly when its [try] body ends with an
    exception, whatever raised it (a request that threw, a missing key,
    a value of the wrong type): then it returns [None] and prints one
    line, ["API Error: "] followed by the text of the exception.  When
    the body returns, with metadata or with [None], nothing is printed.
    In particular a request that threw [e] leaves the line for [e]. *)
Theorem fetch_prints_api_error (artist_name : string) (w : world)
        (r : res (option metadata)) (w' : world) :
  fetch_artist_metadata py_repr catalog artist_name w = (r, w') →
  (∀ md, r = Ok (Some md) → stdout w' = stdout w) ∧
  (∀ u e, (u, Throws e) ∈ new_requests w w' →
          stdout w' = stdout w ++ ["API Error: " +:+ exn_text e]) ∧
  (∀ e wb, fetch_body py_repr catalog artist_name w = (Raised e, wb) →
           r = Ok None ∧
           stdout w' = stdout w ++ ["API Error: " +:+ exn_text e]) ∧
  (∀ r0 wb, fetch_body py_repr catalog artist_name w = (Ok r0, wb) →
            r = Ok r0 ∧ stdout w' = stdout w).
Proof.
  intros Hrun. rewrite fetch_artist_metadata_unfold in Hrun.
  pose proof (keeps_stdout_fetch_body artist_name w) as Hquiet.
  destruct (fetch_body_run py_repr catalog artist_name w)
    as (rb & wb & es & E & I & _ & _ & T & _).
  rewrite E in Hrun, Hquiet. simpl in Hquiet.
  destruct rb as [r0|e0|]; inversion Hrun; subst.
  - split_and!; [done| | |].
    + intros u e Hin. rewrite (new_requests_issued _ _ _ I) in Hin.
      apply list_elem_of_lookup in Hin as [i Hi].
      by destruct (T i u e Hi) as [_ ?].
    + intros e wb' Hb. rewrite E in Hb. by inversion Hb.
    + intros r1 wb' Hb. rewrite E in Hb. inversion Hb; subst. by split.
  - split_and!; [done| | |].
    + intros u e Hin.
      assert (Hnew : new_requests w
                (World (requests_log wb) (rng wb)
                       (stdout wb ++ ["API Error: " +:+ exn_text e0])
                       (generation_log wb) (page wb))
              = new_requests w wb) by done.
      rewrite Hnew, (new_requests_issued _ _ _ I) in Hin.
      apply list_elem_of_lookup in Hin as [i Hi].
      destruct (T i u e Hi) as [_ [= ->]]. simpl. by rewrite Hquiet.
    + intros e wb' Hb. rewrite E in Hb. inversion Hb; subst.
      split; [done|]. simpl. by rewrite Hquiet.
    + intros r1 wb' Hb. rewrite E in Hb. by inversion Hb.
  - split_and!; [done| | |].
    + intros u e Hin. rewrite (new_requests_issued _ _ _ I) in Hin.
      apply list_elem_of_lookup in Hin as [i Hi].
      by destruct (T i u e Hi) as [_ ?].
    + intros e wb' Hb. rewrite E in Hb. by inversion Hb.
    + intros r1 wb' Hb. rewrite E in Hb. by inversion Hb.
Qed.

End Printing.

Lemma fetch_prints_api_error_witness :
  (fetch_artist_metadata Scenarios.repr_stub MoreScenarios.anonymous_catalog
     "Ghost" Scenarios.fresh).1 = Ok None ∧
  stdout (fetch_artist_metadata Scenarios.repr_stub
            MoreScenarios.anonymous_catalog "Ghost" Scenarios.fresh).2
  = stdout Scenarios.fresh ++ ["API Error: " +:+ "'id'"].
Proof.
  destruct (fetch_prints_api_error Scenarios.repr_stub
              MoreScenarios.anonymous_catalog "Ghost" Scenarios.fresh
              (fetch_artist_metadata Scenarios.repr_stub
                 MoreScenarios.anonymous_catalog "Ghost" Scenarios.fresh).1
              (fetch_artist_metadata Scenarios.repr_stub
                 MoreScenarios.anonymous_catalog "Ghost" Scenarios.fresh).2)
    as (_ & _ & Hraised & _).
  - apply surjective_pairing.
  - apply (Hraised (Py.KeyError "'id'")
             (fetch_body Scenarios.repr_stub MoreScenarios.anonymous_catalog
                "Ghost" Scenarios.fresh).2).
    vm_compute. reflexivity.
Defined.

(** ** Where the metadata comes from *)

Lemma titles_of_match items ts : titles_of items = Ok ts → titles_match items ts.
Proof.
  revert ts. induction items as [|t rest IH]; simpl; intros ts H.
  - inversion H. constructor.
  - destruct (Py.getitem_key t "title") as [title| |] eqn:E; try done.
    destruct (titles_of rest) as [ts'| |]; try done.
    inversion H; subst. constructor; [done|]. by apply IH.
Qed.

Lemma getitem_key_Ok_dict v key x :
  Py.getitem_key v key = Ok x → ∃ m, v = JDict m ∧ m !! key = Some x.
Proof.
  destruct v; simpl; try done.
  destruct (m !! key) as [y|] eqn:E; [|done]. intros [= ->]. eauto.
Qed.

(** An object that has a key is the first item of what [data[0]]
    is taken from only when that is a list. *)
Lemma getitem_0_dict data artist_obj key x :
  Py.getitem_0 data = Ok artist_obj →
  Py.getitem_key artist_obj key = Ok x →
  ∃ rest, data = JList (artist_obj :: rest).
Proof.
  intros H0 Hk. destruct data as [| | | |s|l|m]; simpl in H0; try done.
  - destruct (Py.chars s !! 0); [|done]. inversion H0; subst. done.
  - destruct l as [|y rest]; simpl in H0; [done|]. inversion H0; subst. eauto.
Qed.

Section Provenance.

Variable py_repr : json → string.
Variable catalog : list string → string → outcome json.

Lemma fetch_Some_fetched artist_name w md w' :
  fetch_artist_metadata py_repr catalog artist_name w = (Ok (Some md), w') →
  fetched py_repr catalog artist_name w md w'.
Proof.
  intros Hrun.
  destruct (fetch_artist_metadata_run py_repr catalog artist_name w)
    as (r0 & w0 & es0 & E & _ & _ & _ & Psome & _).
  rewrite Hrun in E. inversion E; subst.
  destruct (Psome md eq_refl) as [Hb _]. by apply fetch_body_Some.
Qed.

(** X3. A fetch that returns metadata took the first artist of the
    search result and no other: the search answered with a dict whose
    ["data"] is a list, [source_artist] is the ["name"] of its first
    entry, and the next two requests are the top-4 and the related-20
    request for the ["id"] of that entry.  They come after the search
    request, in this order, and every later request is a top-2 request. *)
Theorem fetch_takes_first_match (artist_name : string) (w : world)
        (md : metadata) (w' : world) :
  fetch_artist_metadata py_repr catalog artist_name w = (Ok (Some md), w') →
  ∃ response first rest artist_id,
    catalog (requests_log w).*1 (search_url artist_name) = Returns response ∧
    listing response (first :: rest) ∧
    Py.getitem_key first "id" = Ok artist_id ∧
    Py.getitem_key first "name" = Ok (source_artist md) ∧
    take 3 (new_requests w w').*1
    = [search_url artist_name; tracks_url py_repr artist_id;
       related_url py_repr artist_id] ∧
    Forall (λ u, ∃ r_id, u = r_tracks_url py_repr r_id)
           (drop 3 (new_requests w w').*1).
Proof.
  intros Hrun. apply fetch_Some_fetched in Hrun
    as (response & data & artist_obj & artist_id & tracks_response &
        tracks_data & track_items & related_response & related_data_all &
        related_data & related_items & es & H).
  simpl in H.
  destruct H as (Hsearch & Hdata & _ & H0 & Hid & Hname &_&_&_&_&_&_&_&_&_& F & I).
  destruct (getitem_0_dict _ _ _ _ H0 Hid) as [rest ->].
  apply getitem_key_Ok_dict in Hdata as (m & -> & Hm).
  exists (JDict m), artist_obj, rest, artist_id.
  rewrite (new_requests_issued _ _ _ I).
  split_and!; [done|by exists m|done|done|done|].
  simpl. clear -F. induction F as [|x e s xs es' ss Hstep _ IH]; simpl; [done|].
  constructor; [|done].
  destruct Hstep as (r_id & ? & ? & ? & ? & _ & -> & _). by exists r_id.
Qed.

(** X4. The titles in returned metadata are those the catalog sent,
    in its order, none dropped and none added: [source_tracks] are the
    ["title"]s of the items of the top-4 response, and the [tracks] of
    the i-th related artist those of the items of the i-th top-2
    response. *)
Theorem fetch_copies_titles (artist_name : string) (w : world)
        (md : metadata) (w' : world) :
  fetch_artist_metadata py_repr catalog artist_name w = (Ok (Some md), w') →
  (∀ u tracks_response top,
     new_requests w w' !! 1 = Some (u, Returns tracks_response) →
     listing tracks_response top →
     titles_match top (source_tracks md)) ∧
  (∀ i u r_response r_items s,
     new_requests w w' !! (3 + i) = Some (u, Returns r_response) →
     listing r_response r_items →
     similar md !! i = Some s →
     titles_match r_items (tracks s)).
Proof.
  intros Hrun. apply fetch_Some_fetched in Hrun
    as (response & data & artist_obj & artist_id & tracks_response &
        tracks_data & track_items & related_response & related_data_all &
        related_data & related_items & es & H).
  simpl in H.
  destruct H as (_&_&_&_&_&_&_& Htdata & Htiter & Httitles &_&_&_&_&_& F & I).
  rewrite (new_requests_issued _ _ _ I). split.
  - intros u r top [= _ <-] Hlist.
    rewrite (listing_dict_get _ _ _ Hlist) in Htdata. inversion Htdata; subst.
    simpl in Htiter. inversion Htiter; subst. by apply titles_of_match.
  - intros i u r_response r_items s Hi Hlist Hs. simpl in Hi.
    destruct (Forall3_lookup_m _ _ _ _ _ _ F Hi) as (x & s' & _ & Hs' & Hstep).
    rewrite Hs in Hs'. inversion Hs'; subst s'.
    destruct Hstep as (r_id & r_resp & r_data & items & h &
                       _ & [= _ <-] & _ & Hd & Hit & Hti & _).
    rewrite (listing_dict_get _ _ _ Hlist) in Hd. inversion Hd; subst.
    simpl in Hit. inversion Hit; subst. by apply titles_of_match.
Qed.

End Provenance.

Lemma fetch_takes_first_match_witness :
  ∃ response first rest artist_id,
    Scenarios.echo_catalog [] (search_url "Echo") = Returns response ∧
    listing response (first :: rest) ∧
    Py.getitem_key first "id" = Ok artist_id ∧
    Py.getitem_key first "name" = Ok (JStr "Echo").
Proof.
  destruct (fetch_takes_first_match Scenarios.repr_stub Scenarios.echo_catalog
              "Echo" (World [] [3; 3; 3; 9; 0; 1] [] [] [])
              (Metadata (JStr "Echo") [JStr "Ping"; JStr "Pong"]
                 [RelatedArtist (JStr "R4") [JStr "T4"];
                  RelatedArtist (JStr "R6") [JStr "T6"];
                  RelatedArtist (JStr "R5") [JStr "T5"];
                  RelatedArtist (JStr "R1") [JStr "T1"];
                  RelatedArtist (JStr "R3") [JStr "T3"]])
              (fetch_artist_metadata Scenarios.repr_stub Scenarios.echo_catalog
                 "Echo" (World [] [3; 3; 3; 9; 0; 1] [] [] [])).2)
    as (response & first & rest & artist_id & H1 & H2 & H3 & H4 & _).
  - vm_compute. reflexivity.
  - exists response, first, rest, artist_id. by split_and!.
Defined.

Lemma fetch_copies_titles_witness :
  titles_match [Scenarios.track "Ping"; Scenarios.track "Pong"]
    [JStr "Ping"; JStr "Pong"].
Proof.
  destruct (fetch_copies_titles Scenarios.repr_stub Scenarios.echo_catalog
              "Echo" (World [] [3; 3; 3; 9; 0; 1] [] [] [])
              (Metadata (JStr "Echo") [JStr "Ping"; JStr "Pong"]
                 [RelatedArtist (JStr "R4") [JStr "T4"];
                  RelatedArtist (JStr "R6") [JStr "T6"];
                  RelatedArtist (JStr "R5") [JStr "T5"];
                  RelatedArtist (JStr "R1") [JStr "T1"];
                  RelatedArtist (JStr "R3") [JStr "T3"]])
              (fetch_artist_metadata Scenarios.repr_stub Scenarios.echo_catalog
                 "Echo" (World [] [3; 3; 3; 9; 0; 1] [] [] [])).2)
    as [Htop _].
  - vm_compute. reflexivity.
  - eapply (Htop "https://api.deezer.com/artist/1/top?limit=4"
              (Scenarios.data_of [Scenarios.track "Ping"; Scenarios.track "Pong"])).
    + vm_compute. reflexivity.
    + eexists. split; [reflexivity|]. vm_compute. reflexivity.
Defined.

(** ** Missing keys *)

Lemma lacks_data_dict_get response dflt :
  lacks_data response → Py.dict_get response "data" dflt = Ok dflt.
Proof. intros (m & -> & Hm). simpl. by rewrite Hm. Qed.

Lemma bind_lift_raised {A B} (r : res A) (k : A → M B) w e :
  r = Raised e → bind (lift r) k w = (Raised e, w).
Proof. by intros ->. Qed.

Section MissingKeys.

Variable py_repr : json → string.
Variable catalog : list string → string → outcome json.

(** X5. In the answers to the top-tracks and the related-artists
    request the key ["data"] is optional: when both answers are dicts
    without it, the fetch returns the artist with no tracks and no
    related artists, after exactly three requests and without drawing a
    random number. *)
Theorem missing_data_is_empty (artist_name : string) (w : world)
        (response first : json) (rest : list json)
        (artist_id real_name tracks_response related_response : json) :
  catalog (requests_log w).*1 (search_url artist_name) = Returns response →
  listing response (first :: rest) →
  Py.getitem_key first "id" = Ok artist_id →
  Py.getitem_key first "name" = Ok real_name →
  catalog ((requests_log w).*1 ++ [search_url artist_name])
          (tracks_url py_repr artist_id) = Returns tracks_response →
  lacks_data tracks_response →
  catalog ((requests_log w).*1 ++
             [search_url artist_name; tracks_url py_repr artist_id])
          (related_url py_repr artist_id) = Returns related_response →
  lacks_data related_response →
  ∃ w',
    fetch_artist_metadata py_repr catalog artist_name w
    = (Ok (Some (Metadata real_name [] [])), w') ∧
    new_requests w w'
    = [(search_url artist_name, Returns response);
       (tracks_url py_repr artist_id, Returns tracks_response);
       (related_url py_repr artist_id, Returns related_response)] ∧
    rng w' = rng w.
Proof.
  intros Hsearch Lsearch Hid Hname Htracks Ltracks Hrelated Lrelated.
  set (w1 := World (requests_log w ++ [(search_url artist_name, Returns response)])
               (rng w) (stdout w) (generation_log w) (page w)).
  set (w2 := World (requests_log w1 ++ [(tracks_url py_repr artist_id, Returns tracks_response)])
               (rng w) (stdout w) (generation_log w) (page w)).
  set (w3 := World (requests_log w2 ++ [(related_url py_repr artist_id, Returns related_response)])
               (rng w) (stdout w) (generation_log w) (page w)).
  exists w3. split_and!; [| |done].
  - rewrite fetch_artist_metadata_unfold. unfold fetch_body.
    rewrite (bind_run _ _ _ _ _ (request_returns _ _ _ _ Hsearch)). fold w1.
    rewrite (bind_lift _ _ _ _ (listing_dict_get _ _ _ Lsearch)). simpl.
    rewrite (bind_lift _ _ _ _ (listing_getitem _ _ Lsearch)).
    rewrite (bind_lift (Py.getitem_0 (JList (first :: rest))) _ _ first eq_refl).
    rewrite (bind_lift _ _ _ _ Hid), (bind_lift _ _ _ _ Hname).
    rewrite (bind_run _ _ w1 tracks_response w2).
    2:{ apply request_returns. simpl. by rewrite fmap_app. }
    rewrite (bind_lift _ _ _ _ (lacks_data_dict_get _ _ Ltracks)).
    rewrite (bind_run _ _ _ _ _ (titles_run (JList []) [] [] _ eq_refl eq_refl)).
    rewrite (bind_run _ _ w2 related_response w3).
    2:{ apply request_returns. simpl. by rewrite !fmap_app, <- app_assoc. }
    rewrite (bind_lift _ _ _ _ (lacks_data_dict_get _ _ Lrelated)).
    reflexivity.
  - unfold new_requests. simpl. rewrite <- !app_assoc. by rewrite drop_app_length.
Qed.

(** X6. When the first entry of the search result has no ["id"], or
    has one but no ["name"], the fetch gives up at once: it returns
    [None] after the search request alone and prints the text of the
    exception the missing key raised. *)
Theorem unusable_first_match (artist_name : string) (w : world)
        (response first : json) (rest : list json) (e : exn) :
  catalog (requests_log w).*1 (search_url artist_name) = Returns response →
  listing response (first :: rest) →
  Py.getitem_key first "id" = Raised e
  ∨ ((∃ artist_id, Py.getitem_key first "id" = Ok artist_id) ∧
     Py.getitem_key first "name" = Raised e) →
  ∃ w',
    fetch_artist_metadata py_repr catalog artist_name w = (Ok None, w') ∧
    new_requests w w' = [(search_url artist_name, Returns response)] ∧
    stdout w' = stdout w ++ ["API Error: " +:+ exn_text e].
Proof.
  intros Hsearch Lsearch Hbad.
  set (w1 := World (requests_log w ++ [(search_url artist_name, Returns response)])
               (rng w) (stdout w) (generation_log w) (page w)).
  assert (Hbody : fetch_body py_repr catalog artist_name w = (Raised e, w1)).
  { unfold fetch_body.
    rewrite (bind_run _ _ _ _ _ (request_returns _ _ _ _ Hsearch)). fold w1.
    rewrite (bind_lift _ _ _ _ (listing_dict_get _ _ _ Lsearch)). simpl.
    rewrite (bind_lift _ _ _ _ (listing_getitem _ _ Lsearch)).
    rewrite (bind_lift (Py.getitem_0 (JList (first :: rest))) _ _ first eq_refl).
    destruct Hbad as [Hid | [[artist_id Hid] Hname]].
    - by rewrite (bind_lift_raised _ _ _ _ Hid).
    - rewrite (bind_lift _ _ _ _ Hid). by rewrite (bind_lift_raised _ _ _ _ Hname). }
  eexists. rewrite fetch_artist_metadata_unfold, Hbody.
  split_and!; [done| |done].
  unfold new_requests. simpl. by rewrite drop_app_length.
Qed.

(** X7. There is no partial result.  When the catalog lists at most
    five related artists and one of them lacks the key ["id"] or the
    key ["name"], a fetch that got as far as that list returns [None],
    however good the other entries are. *)
Theorem one_bad_related_artist (artist_name : string) (w : world)
        (r : res (option metadata)) (w' : world)
        (u : string) (related_response : json) (related : list json) (x : json) :
  fetch_artist_metadata py_repr catalog artist_name w = (r, w') →
  new_requests w w' !! 2 = Some (u, Returns related_response) →
  listing related_response related →
  length related ≤ 5 →
  x ∈ related →
  ¬ (has_key "id" x ∧ has_key "name" x) →
  r = Ok None.
Proof.
  intros Hrun Hthird Hlist Hshort Hx Hbad.
  destruct (fetch_artist_metadata_run py_repr catalog artist_name w)
    as (r0 & w0 & es0 & E & _ & _ & _ & Psome & _).
  rewrite Hrun in E. inversion E; subst. f_equal.
  destruct r0 as [md|]; [|done]. exfalso.
  destruct (Psome md eq_refl) as [Hb _].
  apply fetch_body_Some in Hb
    as (response & data & artist_obj & artist_id & tracks_response &
        tracks_data & track_items & related_response' & related_data_all &
        related_data & related_items & es & H).
  simpl in H.
  destruct H as (_&_&_&_&_&_&_&_&_&_&_& Hdata & (wa & wb & Hsel) & Hiter &_& F & I).
  rewrite (new_requests_issued _ _ _ I) in Hthird. simpl in Hthird.
  inversion Hthird; subst.
  rewrite (listing_dict_get _ _ _ Hlist) in Hdata. inversion Hdata; subst.
  destruct (select_related_list related wa) as [_ Hkeep].
  rewrite (Hkeep Hshort) in Hsel. inversion Hsel; subst.
  simpl in Hiter. inversion Hiter; subst.
  apply list_elem_of_lookup in Hx as [i Hi].
  destruct (Forall3_lookup_l _ _ _ _ _ _ F Hi) as (e & s & _ & _ & Hstep).
  destruct Hstep as (r_id & ? & ? & ? & ? & Hid & _ & _ & _ & _ & _ & Hname).
  apply Hbad. split.
  - apply getitem_key_Ok_dict in Hid as (m & -> & Hm). by exists m, r_id.
  - apply getitem_key_Ok_dict in Hname as (m & -> & Hm). by exists m, (name s).
Qed.

End MissingKeys.

Lemma missing_data_is_empty_witness :
  ∃ w',
    fetch_artist_metadata Scenarios.repr_stub MoreScenarios.bare_catalog "Solo"
      Scenarios.fresh
    = (Ok (Some (Metadata (JStr "Solo") [] [])), w').
Proof.
  destruct (missing_data_is_empty Scenarios.repr_stub MoreScenarios.bare_catalog
              "Solo" Scenarios.fresh
              (Scenarios.data_of [Scenarios.artist 7 "Solo"])
              (Scenarios.artist 7 "Solo") [] (JInt 7) (JStr "Solo")
              (Scenarios.obj [("total", JInt 0)]) (Scenarios.obj []))
    as (w' & Hrun & _).
  - vm_compute. reflexivity.
  - eexists. split; [reflexivity|]. vm_compute. reflexivity.
  - vm_compute. reflexivity.
  - vm_compute. reflexivity.
  - vm_compute. reflexivity.
  - eexists. split; [reflexivity|]. vm_compute. reflexivity.
  - vm_compute. reflexivity.
  - eexists. split; [reflexivity|]. vm_compute. reflexivity.
  - exists w'. exact Hrun.
Defined.

Lemma unusable_first_match_witness :
  ∃ w',
    fetch_artist_metadata Scenarios.repr_stub MoreScenarios.anonymous_catalog
      "Ghost" Scenarios.fresh = (Ok None, w') ∧
    stdout w' = ["API Error: 'id'"].
Proof.
  destruct (unusable_first_match Scenarios.repr_stub
              MoreScenarios.anonymous_catalog "Ghost" Scenarios.fresh
              (Scenarios.data_of [Scenarios.obj [("name", JStr "Ghost")]])
              (Scenarios.obj [("name", JStr "Ghost")]) []
              (Py.KeyError "'id'"))
    as (w' & Hrun & _ & Hout).
  - vm_compute. reflexivity.
  - eexists. split; [reflexivity|]. vm_compute. reflexivity.
  - left. vm_compute. reflexivity.
  - exists w'. split; [exact Hrun | exact Hout].
Defined.

Lemma one_bad_related_artist_witness :
  (fetch_artist_metadata Scenarios.repr_stub MoreScenarios.nameless_catalog
     "Duo" Scenarios.fresh).1 = Ok None.
Proof.
  eapply (one_bad_related_artist Scenarios.repr_stub
            MoreScenarios.nameless_catalog "Duo" Scenarios.fresh _
            (fetch_artist_metadata Scenarios.repr_stub
               MoreScenarios.nameless_catalog "Duo" Scenarios.fresh).2
            "https://api.deezer.com/artist/8/related?limit=20"
            (Scenarios.data_of MoreScenarios.nameless_related)
            MoreScenarios.nameless_related
            (Scenarios.obj [("id", JInt 10)])).
  - apply surjective_pairing.
  - vm_compute. reflexivity.
  - eexists. split; [reflexivity|]. vm_compute. reflexivity.
  - simpl. lia.
  - right. left.
  - intros [_ (m & v & Hm & Hv)]. inversion Hm; subst. vm_compute in Hv. done.
Defined.

(** ** The agent's call *)

(** X8. [Agent.execute] makes exactly one generation call, whatever
    its outcome, and returns what it makes of that outcome.  The call
    goes to the agent's client with the fixed decoding parameters and
    two messages, a system message and the user message, which is the
    fixed heading followed by the input unchanged; so two runs on
    different inputs never make the same call, whichever agents and
    services are involved. *)
Theorem call_carries_context
        (generate generate' : list gen_call → gen_call → outcome string)
        (self other : Agent) (input_context input' : string) (w v : world) :
  ∃ c out c' out',
    generation_log (execute generate self input_context w).2
    = generation_log w ++ [(c, out)] ∧
    generation_log (execute generate' other input' v).2
    = generation_log v ++ [(c', out')] ∧
    out = generate (generation_log w).*1 c ∧
    (execute generate self input_context w).1 = Ok (reply out) ∧
    gc_model c = client_model (agent_client self) ∧
    gc_token c = client_token (agent_client self) ∧
    gc_max_tokens c = 1500 ∧
    gc_temperature c = 4 # 10 ∧
    gc_top_p c = 9 # 10 ∧
    length (gc_messages c) = 2 ∧
    (∃ instructions, gc_messages c !! 0 = Some ("system", instructions)) ∧
    gc_messages c !! 1
    = Some ("user", "КОНТЕКСТ ДАННЫХ:" +:+ Py.nl +:+ input_context) ∧
    (input_context ≠ input' → c ≠ c').
Proof.
  rewrite !execute_run. cbn [fst snd generation_log].
  eexists _, _, _, _. split_and!; try reflexivity.
  - by eexists.
  - intros Hne H. apply Hne.
    apply (f_equal (λ c, gc_messages c !! 1)) in H.
    unfold call_of, messages_of in H. cbn [gc_messages lookup list_lookup] in H.
    by injection H as Huser.
Qed.

Lemma call_carries_context_witness :
  ∃ c out c' out',
    generation_log (execute Scenarios.gen_echo
                      (agent3 (Client MODEL_REPO_ID "hf_token")) "Echo - Ping"
                      Scenarios.fresh).2 = [(c, out)] ∧
    generation_log (execute Scenarios.gen_fail
                      (agent3 (Client MODEL_REPO_ID "hf_token")) "Echo - Pong"
                      Scenarios.fresh).2 = [(c', out')] ∧
    c ≠ c'.
Proof.
  destruct (call_carries_context Scenarios.gen_echo Scenarios.gen_fail
              (agent3 (Client MODEL_REPO_ID "hf_token"))
              (agent3 (Client MODEL_REPO_ID "hf_token"))
              "Echo - Ping" "Echo - Pong" Scenarios.fresh Scenarios.fresh)
    as (c & out & c' & out' & Hlog & Hlog' & _ & _ & _ & _ & _ & _ & _ & _ & _ & _ & Hne).
  exists c, out, c', out'. split_and!; [exact Hlog | exact Hlog' |].
  apply Hne. discriminate.
Defined.

(** ** Failures in the pipeline *)

Section Masking.

Variable generate : list gen_call → gen_call → outcome string.

(** X9. A stage that fails does not stop the pipeline.  When the call
    of agent 2 throws [e], the pipeline still returns normally after
    four generation calls, and agent 3 is called on the failure text,
    ["Ошибка выполнения агента: "] followed by the text of [e], as if it
    were a playlist.  The pipeline sends nothing to the catalog, draws no
    random number and prints nothing. *)
Theorem pipeline_feeds_failure_forward (client : InferenceClient)
        (context_payload : string) (w : world) (e : exn) :
  generate ((generation_log w).*1 ++ [call_of (agent1 client) context_payload])
           (call_of (agent2 client) context_payload) = Throws e →
  ∃ g1 g3 g4 w',
    pipeline generate client context_payload w = (Ok tt, w') ∧
    generation_log w'
    = generation_log w ++
      [(call_of (agent1 client) context_payload, g1);
       (call_of (agent2 client) context_payload, Throws e);
       (call_of (agent3 client) ("Ошибка выполнения агента: " +:+ exn_text e), g3);
       (call_of (agent4 client) (reply g3), g4)] ∧
    requests_log w' = requests_log w ∧ rng w' = rng w ∧ stdout w' = stdout w.
Proof.
  intros He.
  assert (Hg2 : generate
                  (generation_log w ++
                     [(call_of (agent1 client) context_payload,
                       generate (generation_log w).*1
                         (call_of (agent1 client) context_payload))]).*1
                  (call_of (agent2 client) context_payload) = Throws e).
  { by rewrite fmap_app. }
  pose proof (pipeline_run generate client context_payload w) as Hrun.
  cbv zeta in Hrun. rewrite Hg2 in Hrun. cbn [reply] in Hrun.
  eexists _, _, _, _. split; [exact Hrun|]. by split_and!.
Qed.

End Masking.

Lemma pipeline_feeds_failure_forward_witness :
  ∃ g1 g3 g4 w',
    pipeline MoreScenarios.gen_fail_second (Client MODEL_REPO_ID "hf_token")
      "Echo" Scenarios.fresh = (Ok tt, w') ∧
    generation_log w'
    = [(call_of (agent1 (Client MODEL_REPO_ID "hf_token")) "Echo", g1);
       (call_of (agent2 (Client MODEL_REPO_ID "hf_token")) "Echo",
        Throws (Exn "HfHubHTTPError" "503 Service Unavailable"));
       (call_of (agent3 (Client MODEL_REPO_ID "hf_token"))
          ("Ошибка выполнения агента: " +:+ "503 Service Unavailable"), g3);
       (call_of (agent4 (Client MODEL_REPO_ID "hf_token")) (reply g3), g4)].
Proof.
  destruct (pipeline_feeds_failure_forward MoreScenarios.gen_fail_second
              (Client MODEL_REPO_ID "hf_token") "Echo" Scenarios.fresh
              (Exn "HfHubHTTPError" "503 Service Unavailable") eq_refl)
    as (g1 & g3 & g4 & w' & Hrun & Hlog & _).
  exists g1, g3, g4, w'. split; [exact Hrun | exact Hlog].
Defined.

(** ** The text of the context *)

Lemma append_cons (c : ascii) (s t : string) :
  String c s +:+ t = String c (s +:+ t).
Proof. reflexivity. Qed.

Lemma append_nil_r (s : string) : s +:+ "" = s.
Proof. induction s as [|c s IH]; [done|]. by rewrite append_cons, IH. Qed.

Lemma append_assoc (a b c : string) : (a +:+ b) +:+ c = a +:+ (b +:+ c).
Proof. induction a as [|x a IH]; [done|]. by rewrite !append_cons, IH. Qed.

Lemma concat_empty_cons (x : string) (xs : list string) :
  String.concat "" (x :: xs) = x +:+ String.concat "" xs.
Proof.
  destruct xs as [|y ys]; [|done].
  change (x = x +:+ ""). by rewrite append_nil_r.
Qed.

(** On strings [join] is the concatenation with the separator in
    between. *)
Lemma join_from_concat sep items : ∀ i,
  Forall (λ t, Py.is_str t = true) items →
  Py.join_from i sep items = Ok (String.concat sep (title_text <$> items)).
Proof.
  induction items as [|x rest IH]; intros i Hall; [done|].
  apply Forall_cons in Hall as [Hx Hrest].
  destruct x as [| | | |s| |]; try done.
  destruct rest as [|y rest']; [done|].
  change (Py.join_from i sep (JStr s :: y :: rest'))
    with (match Py.join_from (S i) sep (y :: rest') with
          | Ok t => Ok (s +:+ sep +:+ t)
          | other => other
          end).
  by rewrite (IH (S i) Hrest).
Qed.

(** With an item that is not a string [join] raises a [TypeError]. *)
Lemma join_from_TypeError sep items : ∀ i,
  ¬ Forall (λ t, Py.is_str t = true) items →
  ∃ msg, Py.join_from i sep items = Raised (Py.TypeError msg).
Proof.
  induction items as [|x rest IH]; intros i Hnot.
  - destruct Hnot. constructor.
  - destruct (Py.is_str x) eqn:Hx.
    + assert (Hrest : ¬ Forall (λ t, Py.is_str t = true) rest).
      { intros Hall. apply Hnot. by constructor. }
      destruct (IH (S i) Hrest) as [msg Hmsg].
      destruct x as [| | | |s| |]; try done.
      destruct rest as [|y rest']; [destruct Hrest; constructor|].
      exists msg.
      change (Py.join_from i sep (JStr s :: y :: rest'))
        with (match Py.join_from (S i) sep (y :: rest') with
              | Ok t => Ok (s +:+ sep +:+ t)
              | other => other
              end).
      by rewrite Hmsg.
    + destruct x; try done; simpl; eauto.
Qed.

Section ContextText.

Variable py_repr : json → string.

Lemma context_loop_text similar_artists : ∀ context_payload w,
  Forall (λ s, Forall (λ t, Py.is_str t = true) (tracks s)) similar_artists →
  context_loop py_repr similar_artists context_payload w
  = (Ok (context_payload +:+
         String.concat "" (context_line py_repr <$> similar_artists)), w).
Proof.
  induction similar_artists as [|s rest IH]; intros context_payload w Hall.
  - simpl. by rewrite append_nil_r.
  - apply Forall_cons in Hall as [Hs Hrest].
    cbn [context_loop]. unfold bind, lift, Py.join.
    rewrite (join_from_concat _ _ 0 Hs), (IH _ _ Hrest).
    rewrite fmap_cons, concat_empty_cons. unfold context_line.
    do 2 f_equal. apply append_assoc.
Qed.

Lemma context_loop_TypeError similar_artists : ∀ context_payload,
  ¬ Forall (λ s, Forall (λ t, Py.is_str t = true) (tracks s)) similar_artists →
  ∃ msg, ∀ w,
    context_loop py_repr similar_artists context_payload w
    = (Raised (Py.TypeError msg), w).
Proof.
  induction similar_artists as [|s rest IH]; intros context_payload Hnot.
  - destruct Hnot. constructor.
  - cbn [context_loop]. unfold bind, lift, Py.join.
    destruct (decide (Forall (λ t, Py.is_str t = true) (tracks s))) as [Hs|Hs].
    + rewrite (join_from_concat _ _ 0 Hs). apply IH.
      intros Hall. apply Hnot. by constructor.
    + destruct (join_from_TypeError ", " _ 0 Hs) as [msg ->]. by exists msg.
Qed.

(** X10. With string titles throughout, the context is the block of
    the target artist, then the heading of the related artists, then
    one line per related artist in the order of the metadata; each list
    of titles is joined with [", "].  Building it changes nothing. *)
Theorem build_context_text (md : metadata) (w : world) :
  titles_are_strings md →
  build_context py_repr md w = (Ok (context_text py_repr md), w).
Proof.
  intros [Hsrc Hsim]. unfold build_context, bind, lift, Py.join.
  rewrite (join_from_concat _ _ 0 Hsrc).
  by rewrite (context_loop_text _ _ _ Hsim).
Qed.

(** X11. With a track title that is not a string, of the artist or of
    a related artist, building the context raises a [TypeError], and
    changes nothing. *)
Theorem build_context_rejects_other_titles (md : metadata) (w : world) :
  ¬ titles_are_strings md →
  ∃ msg, build_context py_repr md w = (Raised (Py.TypeError msg), w).
Proof.
  intros Hnot. unfold build_context, bind, lift, Py.join.
  destruct (decide (Forall (λ t, Py.is_str t = true) (source_tracks md)))
    as [Hsrc|Hsrc].
  - rewrite (join_from_concat _ _ 0 Hsrc).
    destruct (context_loop_TypeError (similar md)
                (("ЦЕЛЕВАЯ СУЩНОСТЬ: " +:+ py_str py_repr (source_artist md) +:+
                  " (Топ-треки: " +:+
                  String.concat ", " (title_text <$> source_tracks md) +:+
                  ")" +:+ Py.nl) +:+ "СВЯЗАННЫЕ СУЩНОСТИ:" +:+ Py.nl))
      as [msg Hmsg].
    { intros Hsim. apply Hnot. by split. }
    exists msg. apply Hmsg.
  - destruct (join_from_TypeError ", " _ 0 Hsrc) as [msg ->]. by exists msg.
Qed.

End ContextText.

Lemma build_context_text_witness :
  build_context Scenarios.repr_stub
    (Metadata (JStr "Echo") [JStr "Ping"; JStr "Pong"]
       [RelatedArtist (JStr "R1") [JStr "T1"]])
    Scenarios.fresh
  = (Ok (context_text Scenarios.repr_stub
           (Metadata (JStr "Echo") [JStr "Ping"; JStr "Pong"]
              [RelatedArtist (JStr "R1") [JStr "T1"]])),
     Scenarios.fresh).
Proof.
  apply (build_context_text Scenarios.repr_stub
           (Metadata (JStr "Echo") [JStr "Ping"; JStr "Pong"]
              [RelatedArtist (JStr "R1") [JStr "T1"]])
           Scenarios.fresh).
  split; simpl; repeat constructor.
Defined.

Lemma build_context_rejects_other_titles_witness :
  ∃ msg,
    build_context Scenarios.repr_stub (Metadata (JStr "Echo") [JInt 7] [])
      Scenarios.fresh = (Raised (Py.TypeError msg), Scenarios.fresh).
Proof.
  apply (build_context_rejects_other_titles Scenarios.repr_stub
           (Metadata (JStr "Echo") [JInt 7] []) Scenarios.fresh).
  intros [Hsrc _]. simpl in Hsrc. by apply Forall_cons in Hsrc as [? _].
Defined.

(** ** The script and titles that are not strings *)

Section BadTitles.

Variable py_repr : json → string.
Variable catalog : list string → string → outcome json.
Variable generate : list gen_call → gen_call → outcome string.

(** X12. When the fetch returns metadata with a track title that is
    not a string, [main] ends with the [TypeError] of the context
    builder right after stage 0: the page shows the artist as found, no
    generation call is made and no stage is displayed. *)
Theorem main_fails_on_other_titles (hf_token user_query : string)
        (w w1 : world) (md : metadata) :
  hf_token ≠ "" → user_query ≠ "" →
  fetch_artist_metadata py_repr catalog user_query w = (Ok (Some md), w1) →
  ¬ titles_are_strings md →
  ∃ msg w',
    main py_repr catalog generate hf_token user_query true w
    = (Raised (Py.TypeError msg), w') ∧
    generation_log w' = generation_log w ∧
    page w' = page w ++ preamble_page ++
              found_page (py_str py_repr (source_artist md)) ∧
    requests_log w' = requests_log w1.
Proof.
  intros Ht Hq Hrun Hnot. rewrite (main_unfold _ _ _ _ _ _ Ht Hq).
  unfold bind at 1. rewrite (collect_found _ _ _ _ _ _ _ _ Hrun).
  unfold bind at 1.
  destruct (build_context_rejects_other_titles py_repr md
              (with_page w1 (generation_log w)
                 ((page w ++
                   [StPageConfig "Интеллектуальная МАС" "🎵" "wide";
                    StTitle "🎵 Интеллектуальная Система Генерации Плейлистов";
                    StMarkdown "### Лабораторная работа: Мультиагентные системы";
                    StMarkdown "**Выполнили:** Грудницкий и Соловьёв";
                    StMarkdown "---";
                    StHeader "Конфигурация Системы";
                    StWrite "";
                    StWrite ""]) ++
                  [StStatus "Система: Получение метаданных из внешнего API..."] ++
                  found_page (py_str py_repr (source_artist md)))) Hnot)
    as [msg ->].
  eexists msg, _. split_and!; [done|done| |done].
  cbn [page with_page]. unfold preamble_page. by rewrite <- !app_assoc.
Qed.

End BadTitles.

Lemma main_fails_on_other_titles_witness :
  ∃ msg w',
    main Scenarios.repr_stub Scenarios.untitled_catalog Scenarios.gen_echo
      "hf_token" "Echo" true Scenarios.fresh
    = (Raised (Py.TypeError msg), w') ∧
    generation_log w' = [].
Proof.
  destruct (main_fails_on_other_titles Scenarios.repr_stub
              Scenarios.untitled_catalog Scenarios.gen_echo "hf_token" "Echo"
              Scenarios.fresh
              (fetch_artist_metadata Scenarios.repr_stub
                 Scenarios.untitled_catalog "Echo" Scenarios.fresh).2
              (Metadata (JStr "Echo") [JNull] []))
    as (msg & w' & Hrun & Hgen & _).
  - discriminate.
  - discriminate.
  - vm_compute. reflexivity.
  - intros [Hsrc _]. simpl in Hsrc. by apply Forall_cons in Hsrc as [? _].
  - exists msg, w'. split; [exact Hrun | exact Hgen].
Defined.

(** ** The fetch as a whole *)

Section Whole.

Variable py_repr : json → string.
Variable catalog : list string → string → outcome json.

(** X13. The fetch never raises and never stops the script: it
    returns metadata or [None].  Its first request is the search for
    the query, put into the URL as it is; it only adds to the log of
    requests, makes no generation call and displays nothing. *)
Theorem fetch_always_returns (artist_name : string) (w : world) :
  ∃ r w' es,
    fetch_artist_metadata py_repr catalog artist_name w = (Ok r, w') ∧
    requests_log w'
    = requests_log w ++
      ("https://api.deezer.com/search/artist?q=" +:+ artist_name,
       catalog (requests_log w).*1
         ("https://api.deezer.com/search/artist?q=" +:+ artist_name)) :: es ∧
    generation_log w' = generation_log w ∧
    page w' = page w.
Proof.
  rewrite fetch_artist_metadata_unfold.
  destruct (fetch_body_run py_repr catalog artist_name w)
    as (rb & wb & es & E & (I1 & I2 & I3) & NS & _).
  rewrite E. destruct rb as [r|e|]; [| |done].
  - by exists r, wb, es.
  - by eexists None, _, es.
Qed.

End Whole.

(** ** Runs that do not sample *)

Lemma with_rng_same w : with_rng w (rng w) = w.
Proof. by destruct w. Qed.

Lemma rng_blind_keeps {A} (Q : A → Prop) (m : M A) w :
  rng_blind Q m → rng (m w).2 = rng w.
Proof.
  intros H. destruct (H w) as [Hd _]. specialize (Hd (rng w)).
  rewrite with_rng_same in Hd. rewrite Hd at 1. done.
Qed.

Lemma rng_blind_ret {A} (Q : A → Prop) (a : A) : Q a → rng_blind Q (ret a).
Proof. intros HQ w. split; [done|]. by intros ? [= <-]. Qed.

Lemma rng_blind_lift {A} (Q : A → Prop) (r : res A) :
  (∀ a, r = Ok a → Q a) → rng_blind Q (lift r).
Proof. intros HQ w. split; [done|]. apply HQ. Qed.

Lemma rng_blind_print s : rng_blind (λ _, True) (print s).
Proof. intros w. by split. Qed.

Lemma rng_blind_weaken {A} (Q Q' : A → Prop) (m : M A) :
  (∀ a, Q a → Q' a) → rng_blind Q m → rng_blind Q' m.
Proof. intros HQ H w. destruct (H w) as [Hd Hq]. split; [done|]. eauto. Qed.

Lemma rng_blind_bind {A B} (Q1 : A → Prop) (Q2 : B → Prop) (m : M A) (k : A → M B) :
  rng_blind Q1 m → (∀ a, Q1 a → rng_blind Q2 (k a)) → rng_blind Q2 (bind m k).
Proof.
  intros Hm Hk w. destruct (Hm w) as [Hd Hq]. unfold bind. split.
  - intros draws. rewrite Hd.
    destruct (m w) as [[a|e|] w1]; simpl in *; [|done|done].
    apply (Hk a (Hq a eq_refl) w1).
  - destruct (m w) as [[a|e|] w1]; simpl in *; [|done|done].
    apply (Hk a (Hq a eq_refl) w1).
Qed.

Lemma rng_blind_try_except {A} (Q : A → Prop) (body : M A) (handler : exn → M A) :
  rng_blind Q body → (∀ e, rng_blind Q (handler e)) →
  rng_blind Q (try_except body handler).
Proof.
  intros Hm Hk w. destruct (Hm w) as [Hd Hq]. unfold try_except. split.
  - intros draws. rewrite Hd.
    destruct (body w) as [[a|e|] w1]; simpl in *; [done| |done].
    apply (Hk e w1).
  - destruct (body w) as [[a|e|] w1]; simpl in *; [done| |done].
    apply (Hk e w1).
Qed.

Lemma rng_blind_titles d : rng_blind (λ _, True) (titles d).
Proof.
  unfold titles. eapply rng_blind_bind; [by apply rng_blind_lift with (Q := λ _, True)|].
  intros ? _. by apply rng_blind_lift.
Qed.

(** On anything of length at most five, and on anything without a
    length, lines 50-53 draw nothing. *)
Lemma rng_blind_select_related v :
  (∀ n, Py.len v = Ok n → n ≤ 5) → rng_blind (λ _, True) (select_related v).
Proof.
  intros Hlen. unfold select_related.
  eapply rng_blind_bind with (Q1 := λ n, n ≤ 5); [by apply rng_blind_lift|].
  intros n Hn. destruct (Nat.ltb_spec 5 n); [lia|]. by apply rng_blind_ret.
Qed.

Section NoSampling.

Variable py_repr : json → string.
Variable catalog : list string → string → outcome json.

Lemma rng_blind_request (Q : json → Prop) url :
  (∀ h v, catalog h url = Returns v → Q v) →
  rng_blind Q (requests_get_json catalog url).
Proof.
  intros HQ w. split; [done|].
  rewrite requests_get_json_run. simpl. intros a Ha.
  apply (HQ (requests_log w).*1). by destruct (catalog _ url); inversion Ha.
Qed.

Lemma rng_blind_related_loop items : ∀ acc,
  rng_blind (λ _, True) (related_loop py_repr catalog items acc).
Proof.
  induction items as [|x rest IH]; intros acc; simpl.
  - by apply rng_blind_ret.
  - repeat (eapply rng_blind_bind with (Q1 := λ _, True);
            [first [by apply rng_blind_lift | by apply rng_blind_request
                   | apply rng_blind_titles]|]; intros ? _).
    apply IH.
Qed.

Lemma rng_blind_fetch artist_name :
  few_related py_repr catalog →
  rng_blind (λ _, True) (fetch_artist_metadata py_repr catalog artist_name).
Proof.
  intros Hfew. unfold fetch_artist_metadata.
  apply rng_blind_try_except.
  2:{ intros e. eapply rng_blind_bind; [apply rng_blind_print|].
      intros ? _. by apply rng_blind_ret. }
  unfold fetch_body.
  eapply rng_blind_bind with (Q1 := λ _, True); [by apply rng_blind_request|].
  intros response _.
  eapply rng_blind_bind with (Q1 := λ _, True); [by apply rng_blind_lift|].
  intros found _. case_match; [by apply rng_blind_ret|].
  eapply rng_blind_bind with (Q1 := λ _, True); [by apply rng_blind_lift|].
  intros data _.
  eapply rng_blind_bind with (Q1 := λ _, True); [by apply rng_blind_lift|].
  intros artist_obj _.
  eapply rng_blind_bind with (Q1 := λ _, True); [by apply rng_blind_lift|].
  intros artist_id _.
  eapply rng_blind_bind with (Q1 := λ _, True); [by apply rng_blind_lift|].
  intros real_name _.
  eapply rng_blind_bind with (Q1 := λ _, True); [by apply rng_blind_request|].
  intros tracks_response _.
  eapply rng_blind_bind with (Q1 := λ _, True); [by apply rng_blind_lift|].
  intros tracks_data _.
  eapply rng_blind_bind with (Q1 := λ _, True); [apply rng_blind_titles|].
  intros source_tracks _.
  eapply rng_blind_bind
    with (Q1 := λ v, ∃ h, catalog h (related_url py_repr artist_id) = Returns v).
  { apply rng_blind_request. eauto. }
  intros related_response [h Hh].
  eapply rng_blind_bind with (Q1 := λ d, ∀ n, Py.len d = Ok n → n ≤ 5).
  { apply rng_blind_lift. intros d Hd n Hn. eapply Hfew; eauto. }
  intros related_data_all Hlen.
  eapply rng_blind_bind with (Q1 := λ _, True);
    [by apply rng_blind_select_related|].
  intros related_data _.
  eapply rng_blind_bind with (Q1 := λ _, True); [by apply rng_blind_lift|].
  intros related_items _.
  eapply rng_blind_bind with (Q1 := λ _, True); [apply rng_blind_related_loop|].
  intros similar_artists_info _. by apply rng_blind_ret.
Qed.

(** X14. The random source matters for sampling only.  With a
    catalog that never lists more than five related artists the fetch
    draws no random number, and with other draws ahead it returns the
    same result after the same requests and prints the same. *)
Theorem fetch_without_sampling (artist_name : string) (w : world)
        (draws : list nat) :
  few_related py_repr catalog →
  fetch_artist_metadata py_repr catalog artist_name (with_rng w draws)
  = ((fetch_artist_metadata py_repr catalog artist_name w).1,
     with_rng (fetch_artist_metadata py_repr catalog artist_name w).2 draws) ∧
  rng (fetch_artist_metadata py_repr catalog artist_name w).2 = rng w.
Proof.
  intros Hfew. pose proof (rng_blind_fetch artist_name Hfew) as Hblind.
  split.
  - apply Hblind.
  - by eapply rng_blind_keeps.
Qed.

End NoSampling.

Lemma table_catalog_few_related py_repr table :
  few_related_table table = true →
  few_related py_repr (Scenarios.table_catalog table).
Proof.
  unfold few_related_table. rewrite forallb_forall.
  intros Hall h id response d n Hans Hd Hn.
  apply answer_In, list_elem_of_In, Hall in Hans. simpl in Hans.
  unfold related_url in Hans.
  rewrite (last_char_app _ _ "0"%char) in Hans by by apply last_char_app.
  rewrite Hd, Hn in Hans. by apply Nat.leb_le.
Qed.

Lemma fetch_without_sampling_witness :
  fetch_artist_metadata Scenarios.repr_stub Scenarios.duo_catalog "Duo"
    (with_rng Scenarios.fresh [4; 1; 7])
  = ((fetch_artist_metadata Scenarios.repr_stub Scenarios.duo_catalog "Duo"
        Scenarios.fresh).1,
     with_rng (fetch_artist_metadata Scenarios.repr_stub Scenarios.duo_catalog
                 "Duo" Scenarios.fresh).2 [4; 1; 7]).
Proof.
  apply (fetch_without_sampling Scenarios.repr_stub Scenarios.duo_catalog "Duo"
           Scenarios.fresh [4; 1; 7]).
  apply table_catalog_few_related. vm_compute. reflexivity.
Defined.
